(** * Data-quality validators of the real-time analytics platform

    A shallow embedding of [src/quality/schema.py] and
    [src/quality/validators.py]: the schema check, the range and
    nullability validators, the rolling-window anomaly detector and the
    orchestrator that combines them.  The [Event] dataclass and the
    producers of [src/producers/event_producer.py] follow; there the
    Kafka client, a library outside the repository, is the sequence of
    calls made on it, and its answers are a parameter.

    Modelling conventions.
    - A Python value is a [pyval]; a [dict] is an association list in
      insertion order (the order [items()] iterates in).
    - A [float] is a rational number: every finite double is one, and
      comparisons between ints and floats are exact in Python as they are
      here.  NaN and the infinities are outside the model, and the
      arithmetic of the anomaly detector is carried out without rounding
      (mean and variance in [Q], the square root in [R]).
    - A string is a sequence of code points below 256.
    - What the Python runtime provides and the repository does not define
      (the ISO-8601 parser of [datetime], the printing of floats and of
      containers) is a field of the class [PyRuntime]; every theorem holds
      for every runtime.
    - A Python exception is the [Raise] case of [result]; methods run in a
      state-and-exception monad over the receiver and the process-wide
      [World] (the Prometheus counter fed by [record_validation_failure]). *)

From Stdlib Require Import String Ascii List Bool Arith ZArith QArith.
From Stdlib Require Import Reals Qreals Lia Lra DecimalString.
From Stdlib Require Lqa.
Import ListNotations.

Set Warnings "-register-all".

Close Scope Q_scope.
Close Scope R_scope.
Open Scope string_scope.
Open Scope list_scope.

(** ** Python values *)

Inductive pyval : Type :=
| PNone
| PBool (b : bool)
| PInt (z : Z)
| PFloat (q : Q)
| PStr (s : string)
| PList (l : list pyval)
| PDict (d : list (string * pyval)).

Definition dict : Type := list (string * pyval).

Inductive pytype : Type :=
| TNoneType | TBool | TInt | TFloat | TStr | TList | TDict.

Definition type_of (v : pyval) : pytype :=
  match v with
  | PNone => TNoneType
  | PBool _ => TBool
  | PInt _ => TInt
  | PFloat _ => TFloat
  | PStr _ => TStr
  | PList _ => TList
  | PDict _ => TDict
  end.

(** [type(v).__name__] *)
Definition type_name (t : pytype) : string :=
  match t with
  | TNoneType => "NoneType"
  | TBool => "bool"
  | TInt => "int"
  | TFloat => "float"
  | TStr => "str"
  | TList => "list"
  | TDict => "dict"
  end.

(** [isinstance(v, t)]: [bool] is a subclass of [int]. *)
Definition isinstance (v : pyval) (t : pytype) : bool :=
  match type_of v, t with
  | TNoneType, TNoneType => true
  | TBool, TBool => true
  | TBool, TInt => true
  | TInt, TInt => true
  | TFloat, TFloat => true
  | TStr, TStr => true
  | TList, TList => true
  | TDict, TDict => true
  | _, _ => false
  end.

(** [isinstance(v, (int, float))] *)
Definition is_number (v : pyval) : bool :=
  isinstance v TInt || isinstance v TFloat.

(** The numeric value of an int, a bool or a float. *)
Definition num_of (v : pyval) : option Q :=
  match v with
  | PBool true => Some 1%Q
  | PBool false => Some 0%Q
  | PInt z => Some (inject_Z z)
  | PFloat q => Some q
  | _ => None
  end.

(** ** Exceptions *)

Inductive exn : Type :=
| KeyError (key : string)
| TypeError
| ZeroDivisionError
| StatisticsError.

Inductive result (A : Type) : Type :=
| Ok (a : A)
| Raise (e : exn).

Arguments Ok {A} a.
Arguments Raise {A} e.

Definition rbind {A B : Type} (r : result A) (k : A -> result B) : result B :=
  match r with
  | Ok a => k a
  | Raise e => Raise e
  end.

Notation "'let?' x ':=' c 'in' k" := (rbind c (fun x => k))
  (at level 10, x name, c at level 100, k at level 200).

(** ** Dictionaries and the operators the validators use *)

Fixpoint dict_get {A : Type} (k : string) (d : list (string * A)) : option A :=
  match d with
  | [] => None
  | (k', v) :: rest => if String.eqb k k' then Some v else dict_get k rest
  end.

(** [k in d] *)
Definition dict_has {A : Type} (k : string) (d : list (string * A)) : bool :=
  match dict_get k d with
  | Some _ => true
  | None => false
  end.

(** [d[k]] *)
Definition getitem (d : dict) (k : string) : result pyval :=
  match dict_get k d with
  | Some v => Ok v
  | None => Raise (KeyError k)
  end.

(** [d[k] = v]: the value is replaced in place, a new key goes last. *)
Fixpoint dict_set (k : string) (v : pyval) (d : dict) : dict :=
  match d with
  | [] => [(k, v)]
  | (k', v') :: rest =>
      if String.eqb k k' then (k', v) :: rest else (k', v') :: dict_set k v rest
  end.

(** [needle in hay] on strings *)
Fixpoint str_contains (needle hay : string) : bool :=
  String.prefix needle hay ||
  match hay with
  | EmptyString => false
  | String _ rest => str_contains needle rest
  end.

(** [v in l] for a list [l] of strings: [==] holds only for an equal [str]. *)
Definition py_in_strs (v : pyval) (l : list string) : bool :=
  match v with
  | PStr s => existsb (String.eqb s) l
  | _ => false
  end.

(** [k in v] for a string key [k] *)
Definition py_contains (k : string) (v : pyval) : result bool :=
  match v with
  | PDict d => Ok (dict_has k d)
  | PStr s => Ok (str_contains k s)
  | PList l => Ok (existsb (fun x => match x with
                                     | PStr s => String.eqb k s
                                     | _ => false
                                     end) l)
  | _ => Raise TypeError
  end.

(** [v[k]] for a string key [k] *)
Definition py_getitem (v : pyval) (k : string) : result pyval :=
  match v with
  | PDict d => getitem d k
  | _ => Raise TypeError
  end.

(** [a <= b] *)
Definition py_le (a b : pyval) : result bool :=
  match num_of a, num_of b with
  | Some x, Some y => Ok (Qle_bool x y)
  | _, _ => Raise TypeError
  end.

(** [lo <= v <= hi], evaluated left to right *)
Definition py_between (lo v hi : pyval) : result bool :=
  let? below := py_le lo v in
  if below then py_le v hi else Ok false.

(** Whitespace in the sense of [str.isspace], below code point 256. *)
Definition is_space (c : ascii) : bool :=
  let n := nat_of_ascii c in
  ((9 <=? n)%nat && (n <=? 13)%nat) || ((28 <=? n)%nat && (n <=? 32)%nat)
  || (n =? 133)%nat || (n =? 160)%nat.

Fixpoint lstrip (s : string) : string :=
  match s with
  | EmptyString => EmptyString
  | String c rest => if is_space c then lstrip rest else s
  end.

Fixpoint str_rev_onto (s acc : string) : string :=
  match s with
  | EmptyString => acc
  | String c rest => str_rev_onto rest (String c acc)
  end.

Definition str_rev (s : string) : string := str_rev_onto s EmptyString.

Definition rstrip (s : string) : string := str_rev (lstrip (str_rev s)).

(** [s.strip()] *)
Definition strip (s : string) : string := rstrip (lstrip s).

(** [s.replace('Z', '+00:00')] *)
Fixpoint replace_Z (s : string) : string :=
  match s with
  | EmptyString => EmptyString
  | String c rest =>
      if Ascii.eqb c "Z"%char then ("+00:00" ++ replace_Z rest)%string
      else String c (replace_Z rest)
  end.

(** ** The Python runtime *)

Class PyRuntime : Type := {
  (** [datetime.fromisoformat s] returns ([true]) or raises [ValueError] *)
  fromisoformat_ok : string -> bool;
  (** [repr] of a float *)
  float_repr : Q -> string;
  (** [str] of a list or of a dict *)
  container_repr : pyval -> string;
  (** the format specification [:.2f] *)
  format_2f : R -> string
}.

Section Formatting.
Context `{PyRuntime}.

(** [str(v)], as an f-string interpolates it *)
Definition py_str (v : pyval) : string :=
  match v with
  | PNone => "None"
  | PBool true => "True"
  | PBool false => "False"
  | PInt z => NilZero.string_of_int (Z.to_int z)
  | PFloat q => float_repr q
  | PStr s => s
  | PList _ | PDict _ => container_repr v
  end.
End Formatting.

(** ** schema.py *)

Module EventSchema.

Definition REQUIRED_FIELDS : list (string * pytype) :=
  [ ("event_id", TStr);
    ("event_type", TStr);
    ("user_id", TInt);
    ("timestamp", TStr);
    ("session_id", TStr);
    ("properties", TDict);
    ("device", TStr);
    ("geo_location", TStr) ].

Definition VALID_EVENT_TYPES : list string :=
  [ "page_view"; "click"; "add_to_cart"; "purchase"; "user_login";
    "user_logout"; "search"; "video_play"; "video_complete";
    "wishlist_add"; "review_submit"; "checkout_start";
    "checkout_complete" ].

Definition VALID_DEVICE_TYPES : list string :=
  [ "mobile"; "desktop"; "tablet" ].

Definition VALID_SOURCES : list string :=
  [ "organic"; "paid"; "direct"; "referral" ].

(** The loop over [REQUIRED_FIELDS]: the message of the first field that
    is missing or of the wrong type. *)
Fixpoint check_required (fields : list (string * pytype)) (event : dict)
  : option string :=
  match fields with
  | [] => None
  | (field, field_type) :: rest =>
      match dict_get field event with
      | None => Some ("Missing required field: " ++ field)%string
      | Some v =>
          if isinstance v field_type then check_required rest event
          else Some ("Invalid type for " ++ field ++ ": expected "
                     ++ type_name field_type ++ ", got "
                     ++ type_name (type_of v))%string
      end
  end.

Section Validate.
Context `{PyRuntime}.

(** The [try] block around the timestamp: [AttributeError] (no
    [replace] on a value that is not a string) and [ValueError] are
    both caught. *)
Definition timestamp_parses (v : pyval) : bool :=
  match v with
  | PStr s => fromisoformat_ok (replace_Z s)
  | _ => false
  end.

Definition validate (event : dict) : result (bool * option string) :=
  match check_required REQUIRED_FIELDS event with
  | Some msg => Ok (false, Some msg)
  | None =>
    let? event_type := getitem event "event_type" in
    if negb (py_in_strs event_type VALID_EVENT_TYPES) then
      Ok (false, Some ("Invalid event_type: " ++ py_str event_type)%string)
    else
    let? device := getitem event "device" in
    if negb (py_in_strs device VALID_DEVICE_TYPES) then
      Ok (false, Some ("Invalid device: " ++ py_str device)%string)
    else
    let? geo := getitem event "geo_location" in
    if negb (isinstance geo TStr)
       || negb (match geo with
                | PStr s => str_contains "-" s
                | _ => false
                end) then
      Ok (false, Some ("Invalid geo_location format: " ++ py_str geo)%string)
    else
    let? source_bad :=
      (if dict_has "source" event then
         let? source := getitem event "source" in
         Ok (if py_in_strs source VALID_SOURCES then None
             else Some source)
       else Ok None) in
    match source_bad with
    | Some source => Ok (false, Some ("Invalid source: " ++ py_str source)%string)
    | None =>
      let? timestamp := getitem event "timestamp" in
      if negb (timestamp_parses timestamp) then
        Ok (false,
            Some ("Invalid timestamp format: " ++ py_str timestamp)%string)
      else
      let? user_id := getitem event "user_id" in
      let? nonpositive := py_le user_id (PInt 0) in
      if nonpositive then Ok (false, Some "user_id must be positive")
      else Ok (true, None)
    end
  end.
End Validate.

End EventSchema.

(** ** validators.py: results, process state and the method monad *)

Record ValidationResult : Type := {
  is_valid : bool;
  validator_name : string;
  error_message : option string;
  warnings : list string
}.

(** What lives outside the validator objects.
    [validation_failures_total] is the labelled counter of
    [utils/metrics.py], kept as the sequence of label pairs it was
    incremented with.  [invocations] is ghost state: every validator method
    notes its own entry there and nothing reads it; it lets a theorem say
    which methods ran. *)
Record World : Type := {
  validation_failures_total : list (string * string);
  invocations : list string
}.

Definition M (S A : Type) : Type := S -> World -> result A * S * World.

Definition ret {S A : Type} (a : A) : M S A :=
  fun s w => (Ok a, s, w).

Definition bind {S A B : Type} (m : M S A) (k : A -> M S B) : M S B :=
  fun s w =>
    match m s w with
    | (Ok a, s', w') => k a s' w'
    | (Raise e, s', w') => (Raise e, s', w')
    end.

Notation "x <- c1 ;; c2" := (bind c1 (fun x => c2))
  (at level 61, c1 at next level, right associativity).
Notation "c1 ;; c2" := (bind c1 (fun _ => c2))
  (at level 61, right associativity).

(** A pure computation that may raise. *)
Definition lift {S A : Type} (r : result A) : M S A :=
  fun s w => (r, s, w).

Definition get_self {S : Type} : M S S :=
  fun s w => (Ok s, s, w).

Definition set_self {S : Type} (s' : S) : M S unit :=
  fun _ w => (Ok tt, s', w).

(** A method call on an attribute of the receiver. *)
Definition on_attr {S T A : Type} (proj : S -> T) (upd : T -> S -> S)
  (m : M T A) : M S A :=
  fun s w =>
    match m (proj s) w with
    | (r, t', w') => (r, upd t' s, w')
    end.

(** The counter after it was incremented with each label pair of [ms]. *)
Definition add_failures (w : World) (ms : list (string * string)) : World :=
  {| validation_failures_total := validation_failures_total w ++ ms;
     invocations := invocations w |}.

(** Ghost: the world after a validator method was entered. *)
Definition note_entry (method : string) (w : World) : World :=
  {| validation_failures_total := validation_failures_total w;
     invocations := invocations w ++ [method] |}.

(** [metrics.record_validation_failure] *)
Definition record_validation_failure {S : Type}
  (validator failure_reason : string) : M S unit :=
  fun s w => (Ok tt, s, add_failures w [(validator, failure_reason)]).

(** Ghost: note the entry into a validator method. *)
Definition entered {S : Type} (method : string) : M S unit :=
  fun s w => (Ok tt, s, note_entry method w).

(** ** SchemaValidator *)

Module SchemaValidator.

Record t : Type := { name : string; failure_count : nat }.

Definition init : t := {| name := "schema_validator"; failure_count := 0 |}.

Section Methods.
Context `{PyRuntime}.

(** The [logger.warning] call on failure writes to the log only and is
    left out. *)
Definition validate (event : dict) : M t ValidationResult :=
  entered "SchemaValidator.validate" ;;
  verdict <- lift (EventSchema.validate event) ;;
  self <- get_self ;;
  (if negb (fst verdict) then
     set_self {| name := name self;
                 failure_count := failure_count self + 1 |} ;;
     record_validation_failure (name self) "schema_violation"
   else ret tt) ;;
  ret {| is_valid := fst verdict;
         validator_name := name self;
         error_message := snd verdict;
         warnings := [] |}.

End Methods.

End SchemaValidator.

(** ** RangeValidator *)

Module RangeValidator.

Record constraints : Type := { vmin : pyval; vmax : pyval }.

(** The floats [0.01] and [999999.99] are the doubles the literals denote. *)
Definition RANGE_CONSTRAINTS : list (string * constraints) :=
  [ ("user_id", {| vmin := PInt 1; vmax := PInt 9999999999 |});
    ("price",
     {| vmin := PFloat (5764607523034235 # 576460752303423488);
        vmax := PFloat (4294967253050327 # 4294967296) |});
    ("quantity", {| vmin := PInt 1; vmax := PInt 1000 |});
    ("discount", {| vmin := PInt 0; vmax := PInt 100 |}) ].

Record t : Type := { name : string; failure_count : nat }.

Definition init : t := {| name := "range_validator"; failure_count := 0 |}.

Section Methods.
Context `{PyRuntime}.

(** The warning text; [scope] is [Field] or [Property]. *)
Definition out_of_range_msg (scope field : string) (value : pyval)
  (c : constraints) : string :=
  (scope ++ " " ++ field ++ "=" ++ py_str value ++ " out of range ["
   ++ py_str (vmin c) ++ ", " ++ py_str (vmax c) ++ "]")%string.

(** The loop over [event.items()]. *)
Fixpoint scan_top (items : dict) (warnings : list string)
  : M t (list string) :=
  match items with
  | [] => ret warnings
  | (field, value) :: rest =>
      match dict_get field RANGE_CONSTRAINTS with
      | Some c =>
          if is_number value then
            inside <- lift (py_between (vmin c) value (vmax c)) ;;
            if negb inside then
              self <- get_self ;;
              record_validation_failure (name self) "out_of_range" ;;
              scan_top rest
                (warnings ++ [out_of_range_msg "Field" field value c])
            else scan_top rest warnings
          else scan_top rest warnings
      | None => scan_top rest warnings
      end
  end.

(** The loop over [event['properties'].items()]. *)
Fixpoint scan_properties (items : dict) (warnings : list string)
  : M t (list string) :=
  match items with
  | [] => ret warnings
  | (field, value) :: rest =>
      match dict_get field RANGE_CONSTRAINTS with
      | Some c =>
          if is_number value then
            inside <- lift (py_between (vmin c) value (vmax c)) ;;
            if negb inside then
              scan_properties rest
                (warnings ++ [out_of_range_msg "Property" field value c])
            else scan_properties rest warnings
          else scan_properties rest warnings
      | None => scan_properties rest warnings
      end
  end.

Definition validate (event : dict) : M t ValidationResult :=
  entered "RangeValidator.validate" ;;
  warnings <- scan_top event [] ;;
  warnings <-
    (if dict_has "properties" event then
       properties <- lift (getitem event "properties") ;;
       match properties with
       | PDict d => scan_properties d warnings
       | _ => ret warnings
       end
     else ret warnings) ;;
  let is_valid := (length warnings =? 0)%nat in
  self <- get_self ;;
  set_self {| name := name self;
              failure_count :=
                failure_count self + (if is_valid then 0 else 1) |} ;;
  ret {| is_valid := is_valid;
         validator_name := name self;
         error_message := None;
         warnings := warnings |}.

End Methods.

End RangeValidator.

(** ** NullabilityValidator *)

Module NullabilityValidator.

Definition REQUIRED_NON_NULL : list string :=
  [ "event_id"; "event_type"; "user_id"; "timestamp"; "device";
    "geo_location" ].

Record t : Type := { name : string; failure_count : nat }.

Definition init : t :=
  {| name := "nullability_validator"; failure_count := 0 |}.

(** [value is None or (isinstance(value, str) and value.strip() == '')] *)
Definition null_or_empty (value : pyval) : bool :=
  match value with
  | PNone => true
  | PStr s => String.eqb (strip s) ""
  | _ => false
  end.

(** The loop over [REQUIRED_NON_NULL]. *)
Fixpoint scan (fields : list string) (event : dict) (errors : list string)
  : M t (list string) :=
  match fields with
  | [] => ret errors
  | field :: rest =>
      if negb (dict_has field event) then
        scan rest event
          (errors ++ [("Missing required field: " ++ field)%string])
      else
        value <- lift (getitem event field) ;;
        if null_or_empty value then
          self <- get_self ;;
          record_validation_failure (name self) "null_value" ;;
          scan rest event
            (errors ++ [("Required field is null/empty: " ++ field)%string])
        else scan rest event errors
  end.

Definition validate (event : dict) : M t ValidationResult :=
  entered "NullabilityValidator.validate" ;;
  errors <- scan REQUIRED_NON_NULL event [] ;;
  let is_valid := (length errors =? 0)%nat in
  self <- get_self ;;
  set_self {| name := name self;
              failure_count :=
                failure_count self + (if is_valid then 0 else 1) |} ;;
  ret {| is_valid := is_valid;
         validator_name := name self;
         error_message :=
           match errors with
           | [] => None
           | _ :: _ => Some (String.concat "; " errors)
           end;
         warnings := [] |}.

End NullabilityValidator.

(** ** The [statistics] module of the standard library

    Sample mean and sample standard deviation with their documented
    meaning; both raise [StatisticsError] on too few data points. *)

Module statistics.

Definition total (xs : list Q) : Q := fold_right Qplus 0%Q xs.

Definition count (xs : list Q) : Q := inject_Z (Z.of_nat (length xs)).

Definition mean_of (xs : list Q) : Q := (total xs / count xs)%Q.

(** Sum of squared deviations from the mean over [n - 1]. *)
Definition variance_of (xs : list Q) : Q :=
  (total (map (fun x => (x - mean_of xs) * (x - mean_of xs)) xs)
   / (count xs - 1))%Q.

Definition mean (xs : list Q) : result Q :=
  match xs with
  | [] => Raise StatisticsError
  | _ :: _ => Ok (mean_of xs)
  end.

Definition stdev (xs : list Q) : result R :=
  if (length xs <? 2)%nat then Raise StatisticsError
  else Ok (sqrt (Q2R (variance_of xs))).

End statistics.

(** [x / y] on floats *)
Definition py_truediv (x y : R) : result R :=
  if Req_dec_T y 0%R then Raise ZeroDivisionError else Ok (x / y)%R.

(** ** AnomalyDetector *)

Module AnomalyDetector.

(** [collections.deque] with a [maxlen]. *)
Record deque : Type := { maxlen : nat; items : list Q }.

(** [deque.append]: the item goes in on the right, and when that makes the
    deque longer than [maxlen] one item is dropped on the left. *)
Definition deque_append (d : deque) (x : Q) : deque :=
  let grown := items d ++ [x] in
  {| maxlen := maxlen d;
     items := if (maxlen d <? length grown)%nat then tl grown else grown |}.

Record t : Type := {
  name : string;
  window_size : nat;
  std_threshold : Q;
  value_history : deque;
  failure_count : nat
}.

Definition init (window_size : nat) (std_threshold : Q) : t :=
  {| name := "anomaly_detector";
     window_size := window_size;
     std_threshold := std_threshold;
     value_history := {| maxlen := window_size; items := [] |};
     failure_count := 0 |}.

(** The defaults of [__init__]: a window of 100 and a threshold of 3.0. *)
Definition default : t := init 100 3%Q.

Definition with_history (self : t) (h : deque) : t :=
  {| name := name self;
     window_size := window_size self;
     std_threshold := std_threshold self;
     value_history := h;
     failure_count := failure_count self |}.

Definition with_failure (self : t) : t :=
  {| name := name self;
     window_size := window_size self;
     std_threshold := std_threshold self;
     value_history := value_history self;
     failure_count := failure_count self + 1 |}.

(** The detector once [value] went into its window. *)
Definition appended (self : t) (value : Q) : t :=
  with_history self (deque_append (value_history self) value).

(** The deque after a series of appends. *)
Definition feed (d : deque) (values : list Q) : deque :=
  fold_left deque_append values d.

(** [abs((value - mean) / stdev)] *)
Definition z_score_of (value mean : Q) (stdev : R) : result R :=
  let? quotient := py_truediv (Q2R value - Q2R mean)%R stdev in
  Ok (Rabs quotient).

Section Methods.
Context `{PyRuntime}.

Definition anomaly_msg (field : string) (value mean : Q) (stdev z_score : R)
  : string :=
  ("Anomaly detected in " ++ field ++ ": value=" ++ format_2f (Q2R value)
   ++ ", mean=" ++ format_2f (Q2R mean) ++ ", stdev=" ++ format_2f stdev
   ++ ", z-score=" ++ format_2f z_score)%string.

Definition detect (field : string) (value : Q) : M t ValidationResult :=
  entered "AnomalyDetector.detect" ;;
  self <- get_self ;;
  set_self (with_history self (deque_append (value_history self) value)) ;;
  self <- get_self ;;
  if (length (items (value_history self)) <? 10)%nat then
    ret {| is_valid := true;
           validator_name := name self;
           error_message := None;
           warnings := ["Insufficient samples for anomaly detection"] |}
  else
    let values := items (value_history self) in
    mean <- lift (statistics.mean values) ;;
    stdev <- lift (statistics.stdev values) ;;
    if Req_dec_T stdev 0%R then
      ret {| is_valid := true;
             validator_name := name self;
             error_message := None;
             warnings := [] |}
    else
      z_score <- lift (z_score_of value mean stdev) ;;
      warnings <-
        (if Rlt_dec (Q2R (std_threshold self)) z_score then
           record_validation_failure (name self) "anomaly_detected" ;;
           set_self (with_failure self) ;;
           ret [anomaly_msg field value mean stdev z_score]
         else ret []) ;;
      ret {| is_valid := (length warnings =? 0)%nat;
             validator_name := name self;
             error_message := None;
             warnings := warnings |}.

(** A series of [detect] calls on one field, results in call order. *)
Fixpoint detect_all (field : string) (values : list Q)
  : M t (list ValidationResult) :=
  match values with
  | [] => ret []
  | value :: rest =>
      r <- detect field value ;;
      rs <- detect_all field rest ;;
      ret (r :: rs)
  end.

End Methods.

End AnomalyDetector.

(** ** DataValidator *)

(** The dictionary [get_summary] returns. *)
Module Summary.

Record t : Type := {
  total_validations : nat;
  passed : nat;
  warnings : nat;
  validators : list string
}.

End Summary.

Module DataValidator.

Record t : Type := {
  schema_validator : SchemaValidator.t;
  range_validator : RangeValidator.t;
  nullability_validator : NullabilityValidator.t;
  anomaly_detector : AnomalyDetector.t;
  validation_results : list ValidationResult
}.

Definition init : t :=
  {| schema_validator := SchemaValidator.init;
     range_validator := RangeValidator.init;
     nullability_validator := NullabilityValidator.init;
     anomaly_detector := AnomalyDetector.default;
     validation_results := [] |}.

Definition set_schema_validator (v : SchemaValidator.t) (self : t) : t :=
  {| schema_validator := v;
     range_validator := range_validator self;
     nullability_validator := nullability_validator self;
     anomaly_detector := anomaly_detector self;
     validation_results := validation_results self |}.

Definition set_range_validator (v : RangeValidator.t) (self : t) : t :=
  {| schema_validator := schema_validator self;
     range_validator := v;
     nullability_validator := nullability_validator self;
     anomaly_detector := anomaly_detector self;
     validation_results := validation_results self |}.

Definition set_nullability_validator (v : NullabilityValidator.t) (self : t)
  : t :=
  {| schema_validator := schema_validator self;
     range_validator := range_validator self;
     nullability_validator := v;
     anomaly_detector := anomaly_detector self;
     validation_results := validation_results self |}.

Definition set_anomaly_detector (v : AnomalyDetector.t) (self : t) : t :=
  {| schema_validator := schema_validator self;
     range_validator := range_validator self;
     nullability_validator := nullability_validator self;
     anomaly_detector := v;
     validation_results := validation_results self |}.

Definition set_validation_results (rs : list ValidationResult) (self : t)
  : t :=
  {| schema_validator := schema_validator self;
     range_validator := range_validator self;
     nullability_validator := nullability_validator self;
     anomaly_detector := anomaly_detector self;
     validation_results := rs |}.

Section Methods.
Context `{PyRuntime}.

(** ['properties' in event and 'price' in event['properties']] *)
Definition has_price (event : dict) : result bool :=
  if dict_has "properties" event then
    let? properties := getitem event "properties" in
    py_contains "price" properties
  else Ok false.

(** The price check: [num_of] answers exactly when
    [isinstance(price, (int, float))] holds. *)
Definition check_price (event : dict) (results : list ValidationResult)
  : M t (list ValidationResult) :=
  priced <- lift (has_price event) ;;
  if priced : bool then
    properties <- lift (getitem event "properties") ;;
    price <- lift (py_getitem properties "price") ;;
    match num_of price with
    | Some value =>
        anomaly_result <-
          on_attr anomaly_detector set_anomaly_detector
            (AnomalyDetector.detect "price" value) ;;
        ret (results ++ [anomaly_result])
    | None => ret results
    end
  else ret results.

Definition validate (event : dict) : M t (bool * list ValidationResult) :=
  schema_result <-
    on_attr schema_validator set_schema_validator
      (SchemaValidator.validate event) ;;
  let results := [schema_result] in
  if negb (is_valid schema_result) then ret (false, results)
  else
    range_result <-
      on_attr range_validator set_range_validator
        (RangeValidator.validate event) ;;
    let results := results ++ [range_result] in
    nullability_result <-
      on_attr nullability_validator set_nullability_validator
        (NullabilityValidator.validate event) ;;
    let results := results ++ [nullability_result] in
    results <- check_price event results ;;
    let overall_valid :=
      is_valid schema_result && is_valid nullability_result in
    self <- get_self ;;
    set_self (set_validation_results results self) ;;
    ret (overall_valid, results).

End Methods.

Definition get_summary (self : t) : Summary.t :=
  {| Summary.total_validations := length (validation_results self);
     Summary.passed :=
       list_sum (map (fun _ => 1) (filter is_valid (validation_results self)));
     Summary.warnings :=
       list_sum (map (fun r => length (warnings r))
                     (validation_results self));
     Summary.validators := map validator_name (validation_results self) |}.

End DataValidator.

(** ** What the validators compute, read off an event

    These functions say in one expression what the loops above build up step
    by step; the theorems below prove the two agree. *)

(** The nested [properties] mapping, empty when there is none. *)
Definition properties_of (event : dict) : dict :=
  match dict_get "properties" event with
  | Some (PDict d) => d
  | _ => []
  end.

(** An entry is out of range: its name has bounds, its value is a number,
    and the number lies outside [[min, max]]. *)
Definition out_of_range (entry : string * pyval) : bool :=
  match dict_get (fst entry) RangeValidator.RANGE_CONSTRAINTS,
        num_of (snd entry) with
  | Some c, Some q =>
      match num_of (RangeValidator.vmin c), num_of (RangeValidator.vmax c) with
      | Some lo, Some hi => negb (Qle_bool lo q && Qle_bool q hi)
      | _, _ => false
      end
  | _, _ => false
  end.

(** The metric label pair of one top-level range violation. *)
Definition range_metric (self : RangeValidator.t) (entry : string * pyval)
  : string * string :=
  (RangeValidator.name self, "out_of_range").

(** The violation of one required-non-null field, if any. *)
Definition null_error (event : dict) (field : string) : option string :=
  match dict_get field event with
  | None => Some ("Missing required field: " ++ field)%string
  | Some v =>
      if NullabilityValidator.null_or_empty v
      then Some ("Required field is null/empty: " ++ field)%string
      else None
  end.

Definition null_errors_of (fields : list string) (event : dict)
  : list string :=
  flat_map (fun field => match null_error event field with
                         | Some e => [e]
                         | None => []
                         end) fields.

Definition null_errors (event : dict) : list string :=
  null_errors_of NullabilityValidator.REQUIRED_NON_NULL event.

(** One [null_value] metric per field that is present but null or empty. *)
Definition null_metrics_of (self : NullabilityValidator.t)
  (fields : list string) (event : dict) : list (string * string) :=
  flat_map (fun field => match dict_get field event with
                         | Some v =>
                             if NullabilityValidator.null_or_empty v
                             then [(NullabilityValidator.name self,
                                    "null_value")]
                             else []
                         | None => []
                         end) fields.

Section Readings.
Context `{PyRuntime}.

Definition range_warning (scope : string) (entry : string * pyval) : string :=
  match dict_get (fst entry) RangeValidator.RANGE_CONSTRAINTS with
  | Some c => RangeValidator.out_of_range_msg scope (fst entry) (snd entry) c
  | None => ""
  end.

(** The warnings of the range validator: top-level violations in
    iteration order, then those of [properties]. *)
Definition range_warnings (event : dict) : list string :=
  map (range_warning "Field") (filter out_of_range event)
  ++ map (range_warning "Property")
         (filter out_of_range (properties_of event)).

End Readings.

(** The number the orchestrator passes to the anomaly detector: the
    [price] of [properties] when it is an int, a bool or a float. *)
Definition price_of (event : dict) : option Q :=
  match dict_get "price" (properties_of event) with
  | Some price => num_of price
  | None => None
  end.

(** The results of the three stateless validators on an event. *)
Definition schema_result (self : SchemaValidator.t)
  (verdict : bool * option string) : ValidationResult :=
  {| is_valid := fst verdict;
     validator_name := SchemaValidator.name self;
     error_message := snd verdict;
     warnings := [] |}.

Definition nullability_result (self : NullabilityValidator.t) (event : dict)
  : ValidationResult :=
  {| is_valid := (length (null_errors event) =? 0)%nat;
     validator_name := NullabilityValidator.name self;
     error_message :=
       match null_errors event with
       | [] => None
       | _ :: _ => Some (String.concat "; " (null_errors event))
       end;
     warnings := [] |}.

Section Results.
Context `{PyRuntime}.

Definition range_result (self : RangeValidator.t) (event : dict)
  : ValidationResult :=
  {| is_valid := (length (range_warnings event) =? 0)%nat;
     validator_name := RangeValidator.name self;
     error_message := None;
     warnings := range_warnings event |}.

End Results.

(** The last [n] elements of a list. *)
Definition lastn {A : Type} (n : nat) (xs : list A) : list A :=
  skipn (length xs - n) xs.

(** ** Fixtures *)

Definition world0 : World :=
  {| validation_failures_total := []; invocations := [] |}.

Definition is_digit (c : ascii) : bool :=
  let n := nat_of_ascii c in (48 <=? n)%nat && (n <=? 57)%nat.

(** [s] has the shape of [pattern], where [d] stands for any digit. *)
Fixpoint has_shape (pattern s : string) : bool :=
  match pattern, s with
  | EmptyString, EmptyString => true
  | String p pattern', String c s' =>
      (if Ascii.eqb p "d"%char then is_digit c else Ascii.eqb p c)
      && has_shape pattern' s'
  | _, _ => false
  end.

(** A stand-in for [datetime.fromisoformat] to run examples with: it
    recognises three shapes every version of the parser accepts, without
    checking the ranges of the fields. *)
Definition sample_fromisoformat (s : string) : bool :=
  has_shape "dddd-dd-ddTdd:dd:dd+dd:dd" s
  || has_shape "dddd-dd-ddTdd:dd:dd" s
  || has_shape "dddd-dd-dd" s.

Definition sample_runtime : PyRuntime :=
  {| fromisoformat_ok := sample_fromisoformat;
     float_repr := fun _ => "<float>";
     container_repr := fun _ => "<container>";
     format_2f := fun _ => "<.2f>" |}.

(** The purchase event of the specification's end-to-end properties, with
    the user id and the price left open. *)
Definition purchase_event (user_id price : pyval) : dict :=
  [ ("event_id", PStr "evt_0000000001");
    ("event_type", PStr "purchase");
    ("user_id", user_id);
    ("timestamp", PStr "2024-01-01T00:00:00Z");
    ("session_id", PStr "sess_1");
    ("properties", PDict [("price", price)]);
    ("device", PStr "mobile");
    ("geo_location", PStr "US-CA") ].

(** The float [49.99]: the double the literal denotes. *)
Definition price_49_99 : pyval :=
  PFloat (7035467042882847 # 140737488355328).

(** The purchase event with a device outside the enumeration and a user
    id of zero. *)
Definition smartwatch_event : dict :=
  dict_set "device" (PStr "smartwatch") (purchase_event (PInt 0) price_49_99).

(** A default detector that has seen nine times [10.0]. *)
Definition steady_detector : AnomalyDetector.t :=
  AnomalyDetector.with_history AnomalyDetector.default
    {| AnomalyDetector.maxlen := 100;
       AnomalyDetector.items := repeat 10%Q 9 |}.

(** ** Dictionaries once more *)

(** [del d[k]], on a key that may be absent. *)
Fixpoint dict_remove (k : string) (d : dict) : dict :=
  match d with
  | [] => []
  | (k', v) :: rest =>
      if String.eqb k k' then dict_remove k rest
      else (k', v) :: dict_remove k rest
  end.

(** The keys [EventSchema.validate] reads: the required fields and
    [source]. *)
Definition CONSULTED_KEYS : list string :=
  map fst EventSchema.REQUIRED_FIELDS ++ ["source"].

(** Every character of [s] is whitespace. *)
Fixpoint all_space (s : string) : bool :=
  match s with
  | EmptyString => true
  | String c rest => is_space c && all_space rest
  end.

(** The result [detect] returns while the window is short of ten
    samples. *)
Definition insufficient (r : ValidationResult) : bool :=
  is_valid r
  && match warnings r with
     | [w] => String.eqb w "Insufficient samples for anomaly detection"
     | _ => false
     end.

(** ** Sequences of events *)

Section Streams.
Context `{PyRuntime}.

(** The schema check accepts [event]. *)
Definition accepted (event : dict) : bool :=
  match EventSchema.validate event with
  | Ok (true, _) => true
  | _ => false
  end.

(** The prices that reach the anomaly detector: the numeric
    [properties.price] of each accepted event, in order. *)
Definition fed_prices (events : list dict) : list Q :=
  flat_map (fun event =>
              if accepted event
              then match price_of event with
                   | Some value => [value]
                   | None => []
                   end
              else []) events.

(** A series of [validate] calls on one orchestrator, verdicts in call
    order. *)
Fixpoint validate_all (events : list dict)
  : M DataValidator.t (list (bool * list ValidationResult)) :=
  match events with
  | [] => ret []
  | event :: rest =>
      verdict <- DataValidator.validate event ;;
      verdicts <- validate_all rest ;;
      ret (verdict :: verdicts)
  end.

End Streams.

(** ** schema.py: the [Event] dataclass

    A dataclass checks no annotation: every field holds whatever value it
    was given. *)

Module Event.

Record t : Type := {
  event_id : pyval;
  event_type : pyval;
  user_id : pyval;
  timestamp : pyval;
  session_id : pyval;
  properties : pyval;
  device : pyval;
  geo_location : pyval;
  source : pyval;
  version : pyval
}.

(** The parameters of the generated [__init__], in order; the last two
    have defaults. *)
Definition FIELDS : list string :=
  [ "event_id"; "event_type"; "user_id"; "timestamp"; "session_id";
    "properties"; "device"; "geo_location"; "source"; "version" ].

(** [asdict(self)]: one entry per field, in field order.  The values are
    copied, which no value of the model can tell. *)
Definition to_dict (self : t) : dict :=
  [ ("event_id", event_id self);
    ("event_type", event_type self);
    ("user_id", user_id self);
    ("timestamp", timestamp self);
    ("session_id", session_id self);
    ("properties", properties self);
    ("device", device self);
    ("geo_location", geo_location self);
    ("source", source self);
    ("version", version self) ].

(** A keyword argument without a default: [TypeError] when it is
    missing. *)
Definition keyword (data : dict) (name : string) : result pyval :=
  match dict_get name data with
  | Some v => Ok v
  | None => Raise TypeError
  end.

(** A keyword argument with a default. *)
Definition keyword_or (data : dict) (name : string) (default : pyval)
  : pyval :=
  match dict_get name data with
  | Some v => v
  | None => default
  end.

(** [Event] called with the entries of [data] as keyword arguments:
    [TypeError] on a key that is no parameter and on a parameter without
    default that is missing. *)
Definition from_dict (data : dict) : result t :=
  if negb (forallb (fun entry => existsb (String.eqb (fst entry)) FIELDS) data)
  then Raise TypeError
  else
    let? event_id := keyword data "event_id" in
    let? event_type := keyword data "event_type" in
    let? user_id := keyword data "user_id" in
    let? timestamp := keyword data "timestamp" in
    let? session_id := keyword data "session_id" in
    let? properties := keyword data "properties" in
    let? device := keyword data "device" in
    let? geo_location := keyword data "geo_location" in
    Ok {| event_id := event_id;
          event_type := event_type;
          user_id := user_id;
          timestamp := timestamp;
          session_id := session_id;
          properties := properties;
          device := device;
          geo_location := geo_location;
          source := keyword_or data "source" (PStr "direct");
          version := keyword_or data "version" (PStr "1.0") |}.

End Event.

(** ** event_producer.py *)

Module ProducerMetrics.

Record t : Type := {
  events_sent : nat;
  events_failed : nat;
  schema_validation_failures : nat;
  total_bytes_sent : nat;
  total_time_ms : Q
}.

Definition init : t :=
  {| events_sent := 0;
     events_failed := 0;
     schema_validation_failures := 0;
     total_bytes_sent := 0;
     total_time_ms := 0%Q |}.

(** The property [events_per_second]: the int [0] or a float. *)
Definition events_per_second (self : t) : pyval :=
  if Qeq_bool (total_time_ms self) 0%Q then PInt 0
  else PFloat ((inject_Z (Z.of_nat (events_sent self)) / total_time_ms self)
               * 1000)%Q.

(** The property [avg_latency_ms]: the int [0] or a float. *)
Definition avg_latency_ms (self : t) : pyval :=
  if (events_sent self =? 0)%nat then PInt 0
  else PFloat (total_time_ms self
               / inject_Z (Z.of_nat (events_sent self)))%Q.

End ProducerMetrics.

Module KafkaEventProducer.

(** The Kafka client is a library outside the repository.  It is kept as
    the sequence of calls made on it, and its answers are a parameter. *)
Inductive call : Type :=
| Send (topic value key : string)
| Flush.

(** How the exchange of lines 162 to 173 ends: [future.get] returns, or
    a [KafkaError] or another exception is raised, in both cases after the
    errback [_on_send_error] ran [errbacks] times. *)
Inductive outcome : Type :=
| Acknowledged
| KafkaError (errbacks : nat)
| OtherError (errbacks : nat).

Definition is_send (c : call) : bool :=
  match c with
  | Send _ _ _ => true
  | Flush => false
  end.

Class KafkaRuntime : Type := {
  (** [json.dumps] on the dictionary of an event; the text is ASCII, so
      its UTF-8 encoding has one byte per character *)
  json_dumps : dict -> string;
  (** how a send ends, given the calls made on the client so far, the
      send itself being the last *)
  kafka : list call -> outcome
}.

Record t : Type := {
  topic : string;
  dead_letter_topic : string;
  validate_schema : bool;
  metrics : ProducerMetrics.t;
  producer : list call
}.

(** The object [__init__] leaves, with a client on which nothing was
    called yet. *)
Definition init (topic : string) (validate_schema : bool) : t :=
  {| topic := topic;
     dead_letter_topic := (topic ++ "_dlq")%string;
     validate_schema := validate_schema;
     metrics := ProducerMetrics.init;
     producer := [] |}.

Definition with_metrics (self : t) (m : ProducerMetrics.t) : t :=
  {| topic := topic self;
     dead_letter_topic := dead_letter_topic self;
     validate_schema := validate_schema self;
     metrics := m;
     producer := producer self |}.

Definition with_producer (self : t) (calls : list call) : t :=
  {| topic := topic self;
     dead_letter_topic := dead_letter_topic self;
     validate_schema := validate_schema self;
     metrics := metrics self;
     producer := calls |}.

(** [self.metrics.schema_validation_failures += 1] *)
Definition schema_failure (m : ProducerMetrics.t) : ProducerMetrics.t :=
  {| ProducerMetrics.events_sent := ProducerMetrics.events_sent m;
     ProducerMetrics.events_failed := ProducerMetrics.events_failed m;
     ProducerMetrics.schema_validation_failures :=
       ProducerMetrics.schema_validation_failures m + 1;
     ProducerMetrics.total_bytes_sent := ProducerMetrics.total_bytes_sent m;
     ProducerMetrics.total_time_ms := ProducerMetrics.total_time_ms m |}.

(** [events_sent += 1] and [total_bytes_sent += nbytes] *)
Definition sent (m : ProducerMetrics.t) (nbytes : nat) : ProducerMetrics.t :=
  {| ProducerMetrics.events_sent := ProducerMetrics.events_sent m + 1;
     ProducerMetrics.events_failed := ProducerMetrics.events_failed m;
     ProducerMetrics.schema_validation_failures :=
       ProducerMetrics.schema_validation_failures m;
     ProducerMetrics.total_bytes_sent :=
       ProducerMetrics.total_bytes_sent m + nbytes;
     ProducerMetrics.total_time_ms := ProducerMetrics.total_time_ms m |}.

(** [events_failed += 1], [n] times *)
Definition failed (m : ProducerMetrics.t) (n : nat) : ProducerMetrics.t :=
  {| ProducerMetrics.events_sent := ProducerMetrics.events_sent m;
     ProducerMetrics.events_failed := ProducerMetrics.events_failed m + n;
     ProducerMetrics.schema_validation_failures :=
       ProducerMetrics.schema_validation_failures m;
     ProducerMetrics.total_bytes_sent := ProducerMetrics.total_bytes_sent m;
     ProducerMetrics.total_time_ms := ProducerMetrics.total_time_ms m |}.

(** The counter [events_processed_total] of [utils/metrics.py], kept as
    the sequence of [(service, event_type, status)] it was incremented
    with. *)
Definition telemetry : Type := list (string * pyval * string).

Section Methods.
Context `{PyRuntime} `{KafkaRuntime}.

(** The call [self.producer.send(self.topic, value=event_json,
    key=str(event.user_id))]. *)
Definition send_of (self : t) (event : Event.t) : call :=
  Send (topic self) (json_dumps (Event.to_dict event))
       (py_str (Event.user_id event)).

(** The schema gate of lines 148 to 157: [true] when the event is to be
    turned away. *)
Definition turned_away (self : t) (event : Event.t) : result bool :=
  if validate_schema self then
    let? verdict := EventSchema.validate (Event.to_dict event) in
    Ok (negb (fst verdict))
  else Ok false.

(** The event passes the gate. *)
Definition let_through (self : t) (event : Event.t) : bool :=
  match turned_away self event with
  | Ok false => true
  | _ => false
  end.

(** The [logger] calls write to the log only and are left out. *)
Definition send_event (event : Event.t) (self : t) (processed : telemetry)
  : result bool * t * telemetry :=
  match turned_away self event with
  | Raise e => (Raise e, self, processed)
  | Ok true => (Ok false, with_metrics self (schema_failure (metrics self)),
                processed)
  | Ok false =>
      let event_json := json_dumps (Event.to_dict event) in
      let calls := producer self ++ [send_of self event] in
      let self := with_producer self calls in
      match kafka calls with
      | Acknowledged =>
          (Ok true,
           with_metrics self (sent (metrics self) (String.length event_json)),
           processed ++ [("kafka_producer", Event.event_type event,
                          "success")])
      | KafkaError errbacks =>
          (Ok false,
           with_metrics self (failed (metrics self) (errbacks + 1)),
           processed ++ [("kafka_producer", Event.event_type event,
                          "failed")])
      | OtherError errbacks =>
          (Ok false,
           with_metrics self (failed (metrics self) (errbacks + 1)),
           processed)
      end
  end.

(** The loop of [send_batch]. *)
Fixpoint send_each (events : list Event.t) (successful : nat) (self : t)
  (processed : telemetry) : result nat * t * telemetry :=
  match events with
  | [] => (Ok successful, self, processed)
  | event :: rest =>
      match send_event event self processed with
      | (Ok true, self, processed) =>
          send_each rest (successful + 1) self processed
      | (Ok false, self, processed) =>
          send_each rest successful self processed
      | (Raise e, self, processed) => (Raise e, self, processed)
      end
  end.

(** [send_batch]: an exception of [flush] is caught and logged. *)
Definition send_batch (events : list Event.t) (self : t)
  (processed : telemetry) : result nat * t * telemetry :=
  match send_each events 0 self processed with
  | (Ok successful, self, processed) =>
      (Ok successful, with_producer self (producer self ++ [Flush]),
       processed)
  | (Raise e, self, processed) => (Raise e, self, processed)
  end.

End Methods.

End KafkaEventProducer.

Module BatchProducer.

Record t : Type := {
  producer : KafkaEventProducer.t;
  batch_size : Z;
  buffer : list Event.t
}.

Definition init (producer : KafkaEventProducer.t) (batch_size : Z) : t :=
  {| producer := producer; batch_size := batch_size; buffer := [] |}.

Section Methods.
Context `{PyRuntime} `{KafkaEventProducer.KafkaRuntime}.

Definition flush (self : t) (processed : KafkaEventProducer.telemetry)
  : result nat * t * KafkaEventProducer.telemetry :=
  match buffer self with
  | [] => (Ok 0%nat, self, processed)
  | _ :: _ =>
      match KafkaEventProducer.send_batch (buffer self) (producer self)
              processed with
      | (Ok count, producer', processed) =>
          (Ok count,
           {| producer := producer';
              batch_size := batch_size self;
              buffer := [] |},
           processed)
      | (Raise e, producer', processed) =>
          (Raise e,
           {| producer := producer';
              batch_size := batch_size self;
              buffer := buffer self |},
           processed)
      end
  end.

Definition add_event (event : Event.t) (self : t)
  (processed : KafkaEventProducer.telemetry)
  : result unit * t * KafkaEventProducer.telemetry :=
  let self := {| producer := producer self;
                 batch_size := batch_size self;
                 buffer := buffer self ++ [event] |} in
  if (batch_size self <=? Z.of_nat (length (buffer self)))%Z then
    match flush self processed with
    | (Ok _, self, processed) => (Ok tt, self, processed)
    | (Raise e, self, processed) => (Raise e, self, processed)
    end
  else (Ok tt, self, processed).

(** A series of [add_event] calls. *)
Fixpoint add_events (events : list Event.t) (self : t)
  (processed : KafkaEventProducer.telemetry)
  : result unit * t * KafkaEventProducer.telemetry :=
  match events with
  | [] => (Ok tt, self, processed)
  | event :: rest =>
      match add_event event self processed with
      | (Ok _, self, processed) => add_events rest self processed
      | (Raise e, self, processed) => (Raise e, self, processed)
      end
  end.

(** The sends made on the client so far, followed by those the buffered
    events will lead to. *)
Definition sends (self : t) : list KafkaEventProducer.call :=
  filter KafkaEventProducer.is_send
    (KafkaEventProducer.producer (producer self))
  ++ map (KafkaEventProducer.send_of (producer self))
       (filter (KafkaEventProducer.let_through (producer self))
          (buffer self)).

End Methods.

End BatchProducer.

(** ** Fixtures for the producers *)

(** A Kafka client that acknowledges every send, to run examples with. *)
Definition sample_kafka : KafkaEventProducer.KafkaRuntime :=
  {| KafkaEventProducer.json_dumps := fun _ => "{}";
     KafkaEventProducer.kafka := fun _ => KafkaEventProducer.Acknowledged |}.

(** The purchase event of user 12345 as an [Event], with the given
    device. *)
Definition purchase (device : string) : Event.t :=
  {| Event.event_id := PStr "evt_0000000001";
     Event.event_type := PStr "purchase";
     Event.user_id := PInt 12345;
     Event.timestamp := PStr "2024-01-01T00:00:00Z";
     Event.session_id := PStr "sess_1";
     Event.properties := PDict [("price", price_49_99)];
     Event.device := PStr device;
     Event.geo_location := PStr "US-CA";
     Event.source := PStr "direct";
     Event.version := PStr "1.0" |}.

(** * Properties *)

(** ** Dictionaries *)

Lemma dict_get_set_same : forall k v d, dict_get k (dict_set k v d) = Some v.
Proof.
  intros k v d. induction d as [|[k' v'] rest IH]; simpl.
  - now rewrite String.eqb_refl.
  - destruct (String.eqb k k') eqn:E; simpl; rewrite E; auto.
Qed.

Lemma dict_get_set_other : forall k k' v d,
  String.eqb k' k = false -> dict_get k' (dict_set k v d) = dict_get k' d.
Proof.
  intros k k' v d Hne. induction d as [|[k0 v0] rest IH]; simpl.
  - now rewrite Hne.
  - destruct (String.eqb k k0) eqn:E; simpl.
    + apply String.eqb_eq in E. subst k0. now rewrite Hne.
    + now rewrite IH.
Qed.

Lemma dict_set_same_value : forall k v d,
  dict_get k d = Some v -> dict_set k v d = d.
Proof.
  intros k v d. induction d as [|[k' v'] rest IH]; simpl; [discriminate|].
  destruct (String.eqb k k') eqn:E.
  - now intros [= ->].
  - intros Hget. now rewrite IH.
Qed.

(** ** Numbers *)

Lemma is_number_num_of : forall v,
  is_number v = true -> exists q, num_of v = Some q.
Proof.
  intros [] Hn; try discriminate; cbn; eauto. destruct b; eauto.
Qed.

Lemma not_number_num_of : forall v, is_number v = false -> num_of v = None.
Proof. intros [] Hn; try discriminate; reflexivity. Qed.

Lemma int_typed_le : forall uid, isinstance uid TInt = true ->
  exists b, py_le uid (PInt 0) = Ok b.
Proof.
  intros [] Hi; try discriminate; unfold py_le; cbn; eauto.
  destruct b; eauto.
Qed.

Lemma py_between_numbers : forall lo v hi a q b,
  num_of lo = Some a -> num_of v = Some q -> num_of hi = Some b ->
  py_between lo v hi = Ok (Qle_bool a q && Qle_bool q b).
Proof.
  intros lo v hi a q b Ha Hq Hb. unfold py_between, py_le.
  rewrite Ha, Hq, Hb. cbn [rbind]. destruct (Qle_bool a q); reflexivity.
Qed.

(** ** The world *)

Lemma add_failures_nil : forall w, add_failures w [] = w.
Proof. intros [m i]. unfold add_failures. cbn. now rewrite app_nil_r. Qed.

Lemma add_failures_app : forall w a b,
  add_failures (add_failures w a) b = add_failures w (a ++ b).
Proof. intros [m i] a b. unfold add_failures. cbn. now rewrite app_assoc. Qed.

(** ** EventSchema.validate *)

Ltac split_ifs :=
  repeat match goal with
  | |- context [if ?c then _ else _] => destruct c eqn:?
  end.

Section SchemaProperties.
Context `{PyRuntime}.

(** A passed loop over [REQUIRED_FIELDS] leaves every required field
    present with its type. *)
Lemma required_fields_present : forall event,
  EventSchema.check_required EventSchema.REQUIRED_FIELDS event = None ->
  exists id et uid ts sid props dv geo,
    dict_get "event_id" event = Some (PStr id) /\
    dict_get "event_type" event = Some (PStr et) /\
    dict_get "user_id" event = Some uid /\ isinstance uid TInt = true /\
    dict_get "timestamp" event = Some (PStr ts) /\
    dict_get "session_id" event = Some (PStr sid) /\
    dict_get "properties" event = Some (PDict props) /\
    dict_get "device" event = Some (PStr dv) /\
    dict_get "geo_location" event = Some (PStr geo).
Proof.
  intros event Hc. cbn in Hc.
  repeat match type of Hc with
  | match dict_get ?k event with _ => _ end = None =>
      destruct (dict_get k event) as [[]|] eqn:?; cbn in Hc; try discriminate
  end.
  all: do 8 eexists; repeat split; reflexivity.
Qed.

Ltac schema_facts Hc :=
  let id := fresh "id" in let et := fresh "et" in let uid := fresh "uid" in
  let ts := fresh "ts" in let sid := fresh "sid" in
  let props := fresh "props" in let dv := fresh "dv" in
  let geo := fresh "geo" in
  destruct (required_fields_present _ Hc)
    as (id & et & uid & ts & sid & props & dv & geo &
        ?Hid & ?Het & ?Huid & ?Hint & ?Hts & ?Hsid & ?Hprops & ?Hdv & ?Hgeo).

(** No [KeyError] and no [TypeError]: the unguarded subscripts and the
    comparison come after the loop that makes them safe. *)
Lemma schema_validate_never_raises : forall event,
  exists b msg, EventSchema.validate event = Ok (b, msg).
Proof.
  intros event. unfold EventSchema.validate.
  destruct (EventSchema.check_required _ event) eqn:Hc; [eauto|].
  schema_facts Hc.
  unfold getitem, dict_has. rewrite Het, Hdv, Hgeo, Hts, Huid. cbn [rbind].
  destruct (int_typed_le _ Hint) as [b Hb]. rewrite Hb.
  destruct (dict_get "source" event); cbn [rbind]; split_ifs; eauto.
Qed.

Lemma schema_accepts_positive_only : forall event,
  EventSchema.validate event = Ok (true, None) ->
  exists uid, dict_get "user_id" event = Some uid /\
              isinstance uid TInt = true /\
              py_le uid (PInt 0) = Ok false.
Proof.
  intros event. unfold EventSchema.validate.
  destruct (EventSchema.check_required _ event) eqn:Hc; [discriminate|].
  schema_facts Hc.
  unfold getitem, dict_has. rewrite Het, Hdv, Hgeo, Hts, Huid. cbn [rbind].
  destruct (int_typed_le _ Hint) as [b Hb]. rewrite Hb.
  intros Hv. exists uid. repeat split; auto.
  destruct b; auto. exfalso.
  revert Hv.
  destruct (dict_get "source" event); cbn [rbind]; split_ifs; discriminate.
Qed.

Lemma schema_accepted_properties : forall event,
  EventSchema.validate event = Ok (true, None) ->
  exists props, dict_get "properties" event = Some (PDict props).
Proof.
  intros event. unfold EventSchema.validate.
  destruct (EventSchema.check_required _ event) eqn:Hc; [discriminate|].
  schema_facts Hc. eauto.
Qed.

Lemma schema_rejects_nonpositive : forall event uid q,
  dict_get "user_id" event = Some uid -> num_of uid = Some q ->
  (q <= 0)%Q ->
  exists msg, EventSchema.validate event = Ok (false, Some msg).
Proof.
  intros event uid q Hget Hnum Hq. unfold EventSchema.validate.
  destruct (EventSchema.check_required _ event) eqn:Hc; [eauto|].
  schema_facts Hc. rewrite Hget in Huid. injection Huid as <-.
  unfold getitem, dict_has. rewrite Het, Hdv, Hgeo, Hts, Hget. cbn [rbind].
  assert (Hle : py_le uid (PInt 0) = Ok true).
  { unfold py_le. rewrite Hnum. cbn. f_equal. now apply Qle_bool_iff. }
  rewrite Hle.
  destruct (dict_get "source" event); cbn [rbind]; split_ifs; eauto.
Qed.

Lemma check_required_set_user_id : forall fields event v1 v2,
  (forall ty, In ("user_id", ty) fields ->
              isinstance v1 ty = true /\ isinstance v2 ty = true) ->
  EventSchema.check_required fields (dict_set "user_id" v1 event) =
  EventSchema.check_required fields (dict_set "user_id" v2 event).
Proof.
  induction fields as [|[f ty] rest IH]; intros event v1 v2 Hty;
    [reflexivity|].
  cbn [EventSchema.check_required].
  destruct (String.eqb f "user_id") eqn:E.
  - apply String.eqb_eq in E. subst f.
    rewrite !dict_get_set_same.
    destruct (Hty ty (or_introl eq_refl)) as [-> ->].
    apply IH. intros ty' Hin. apply Hty. now right.
  - rewrite !dict_get_set_other by exact E.
    destruct (dict_get f event); [|reflexivity].
    destruct (isinstance p ty); [|reflexivity].
    apply IH. intros ty' Hin. apply Hty. now right.
Qed.

Lemma required_user_id_int : forall ty v1 v2,
  isinstance v1 TInt = true -> isinstance v2 TInt = true ->
  In ("user_id", ty) EventSchema.REQUIRED_FIELDS ->
  isinstance v1 ty = true /\ isinstance v2 ty = true.
Proof.
  intros ty v1 v2 H1 H2 Hin. cbn in Hin.
  repeat (destruct Hin as [Heq|Hin];
          [try discriminate; injection Heq as <-; auto|]).
  destruct Hin.
Qed.

(** Once [user_id] holds an int-typed value, the verdict depends on that
    value only through the sign test. *)
Lemma schema_validate_set_user_id : forall event v1 v2,
  isinstance v1 TInt = true -> isinstance v2 TInt = true ->
  py_le v1 (PInt 0) = py_le v2 (PInt 0) ->
  EventSchema.validate (dict_set "user_id" v1 event) =
  EventSchema.validate (dict_set "user_id" v2 event).
Proof.
  intros event v1 v2 H1 H2 Hle.
  unfold EventSchema.validate.
  rewrite (check_required_set_user_id _ event v1 v2)
    by (intros ty; apply required_user_id_int; assumption).
  unfold getitem, dict_has.
  rewrite !dict_get_set_same.
  repeat rewrite dict_get_set_other by reflexivity.
  cbn [rbind]. rewrite Hle. reflexivity.
Qed.

Lemma schema_validate_set_nonpositive : forall event v1 v2,
  EventSchema.validate (dict_set "user_id" v1 event) = Ok (true, None) ->
  isinstance v2 TInt = true ->
  py_le v2 (PInt 0) = Ok true ->
  EventSchema.validate (dict_set "user_id" v2 event) =
  Ok (false, Some "user_id must be positive").
Proof.
  intros event v1 v2 Hv H2 Hle.
  destruct (schema_accepts_positive_only _ Hv) as (uid & Hget & H1 & _).
  rewrite dict_get_set_same in Hget. injection Hget as <-.
  revert Hv. unfold EventSchema.validate.
  rewrite (check_required_set_user_id _ event v1 v2)
    by (intros ty; apply required_user_id_int; assumption).
  destruct (EventSchema.check_required _ _) eqn:Hc; [discriminate|].
  unfold getitem, dict_has.
  rewrite !dict_get_set_same.
  repeat rewrite dict_get_set_other by reflexivity.
  cbn [rbind]. rewrite Hle.
  destruct (dict_get "event_type" event); cbn [rbind]; [|discriminate].
  destruct (negb (py_in_strs p _)); [discriminate|].
  destruct (dict_get "device" event); cbn [rbind]; [|discriminate].
  destruct (negb (py_in_strs p0 _)); [discriminate|].
  destruct (dict_get "geo_location" event); cbn [rbind]; [|discriminate].
  destruct (negb (isinstance p1 TStr) || _); [discriminate|].
  destruct (dict_get "source" event); cbn [rbind].
  - destruct (py_in_strs p2 _); [|discriminate].
    destruct (dict_get "timestamp" event); cbn [rbind]; [|discriminate].
    destruct (negb (EventSchema.timestamp_parses p3)); [discriminate|].
    reflexivity.
  - destruct (dict_get "timestamp" event); cbn [rbind]; [|discriminate].
    destruct (negb (EventSchema.timestamp_parses p2)); [discriminate|].
    reflexivity.
Qed.


End SchemaProperties.

(** ** RangeValidator.validate *)

Lemma range_constraints_numeric : forall field c,
  dict_get field RangeValidator.RANGE_CONSTRAINTS = Some c ->
  exists lo hi, num_of (RangeValidator.vmin c) = Some lo /\
                num_of (RangeValidator.vmax c) = Some hi.
Proof.
  intros field c Hc. cbn in Hc.
  repeat match type of Hc with
  | (if ?b then _ else _) = _ => destruct b
  end; try discriminate; injection Hc as <-; cbn; eauto.
Qed.

(** What one iteration of either range loop decides: the comparison never
    raises, and it fails exactly on an entry that is out of range. *)
Lemma range_step : forall field value,
  match dict_get field RangeValidator.RANGE_CONSTRAINTS with
  | Some c =>
      if is_number value then
        py_between (RangeValidator.vmin c) value (RangeValidator.vmax c)
        = Ok (negb (out_of_range (field, value)))
      else out_of_range (field, value) = false
  | None => out_of_range (field, value) = false
  end.
Proof.
  intros field value. unfold out_of_range. cbn [fst snd].
  destruct (dict_get field _) as [c|] eqn:Hc; [|reflexivity].
  destruct (range_constraints_numeric _ _ Hc) as (lo & hi & Hlo & Hhi).
  destruct (is_number value) eqn:Hn.
  - destruct (is_number_num_of _ Hn) as [q Hq].
    rewrite (py_between_numbers _ _ _ _ _ _ Hlo Hq Hhi), Hq, Hlo, Hhi.
    now rewrite negb_involutive.
  - now rewrite (not_number_num_of _ Hn).
Qed.

Section RangeProperties.
Context `{PyRuntime}.

Lemma scan_top_spec : forall items ws self w,
  RangeValidator.scan_top items ws self w =
  (Ok (ws ++ map (range_warning "Field") (filter out_of_range items)),
   self,
   add_failures w (map (range_metric self) (filter out_of_range items))).
Proof.
  induction items as [|[field value] rest IH]; intros ws self w.
  - cbn. now rewrite app_nil_r, add_failures_nil.
  - cbn [RangeValidator.scan_top filter].
    pose proof (range_step field value) as Hstep.
    destruct (dict_get field RangeValidator.RANGE_CONSTRAINTS) as [c|] eqn:Hc.
    + destruct (is_number value).
      * unfold bind at 1, lift at 1. rewrite Hstep.
        destruct (out_of_range (field, value)); cbn [negb].
        -- unfold bind, get_self, record_validation_failure. rewrite IH.
           cbn [map]. rewrite <- app_assoc. cbn [app].
           unfold range_warning at 2. cbn [fst snd]. rewrite Hc.
           now rewrite add_failures_app.
        -- apply IH.
      * rewrite Hstep. apply IH.
    + rewrite Hstep. apply IH.
Qed.

Lemma scan_properties_spec : forall items ws self w,
  RangeValidator.scan_properties items ws self w =
  (Ok (ws ++ map (range_warning "Property") (filter out_of_range items)),
   self, w).
Proof.
  induction items as [|[field value] rest IH]; intros ws self w.
  - cbn. now rewrite app_nil_r.
  - cbn [RangeValidator.scan_properties filter].
    pose proof (range_step field value) as Hstep.
    destruct (dict_get field RangeValidator.RANGE_CONSTRAINTS) as [c|] eqn:Hc.
    + destruct (is_number value).
      * unfold bind at 1, lift at 1. rewrite Hstep.
        destruct (out_of_range (field, value)); cbn [negb].
        -- rewrite IH. cbn [map]. rewrite <- app_assoc. cbn [app].
           unfold range_warning at 2. cbn [fst snd]. now rewrite Hc.
        -- apply IH.
      * rewrite Hstep. apply IH.
    + rewrite Hstep. apply IH.
Qed.

(** The whole run of the range validator, state and world included. *)
Lemma range_validate_run : forall event self w,
  RangeValidator.validate event self w =
  (Ok {| is_valid := (length (range_warnings event) =? 0)%nat;
         validator_name := RangeValidator.name self;
         error_message := None;
         warnings := range_warnings event |},
   {| RangeValidator.name := RangeValidator.name self;
      RangeValidator.failure_count :=
        RangeValidator.failure_count self
        + (if (length (range_warnings event) =? 0)%nat then 0 else 1) |},
   add_failures (note_entry "RangeValidator.validate" w)
     (map (range_metric self) (filter out_of_range event))).
Proof.
  intros event self w. unfold RangeValidator.validate.
  unfold bind at 1, entered at 1. unfold bind at 1. rewrite scan_top_spec.
  cbn [app]. unfold range_warnings, properties_of, dict_has, getitem.
  destruct (dict_get "properties" event) as [[]|];
    cbn [bind lift app map filter];
    try (rewrite app_nil_r; reflexivity).
  unfold bind at 1, lift at 1. unfold bind at 1.
  rewrite scan_properties_spec. reflexivity.
Qed.


End RangeProperties.

(** ** NullabilityValidator.validate *)

Lemma null_scan_spec : forall fields event errors self w,
  NullabilityValidator.scan fields event errors self w =
  (Ok (errors ++ null_errors_of fields event), self,
   add_failures w (null_metrics_of self fields event)).
Proof.
  induction fields as [|field rest IH]; intros event errors self w.
  - cbn. now rewrite app_nil_r, add_failures_nil.
  - cbn [NullabilityValidator.scan null_errors_of null_metrics_of flat_map].
    unfold dict_has, null_error, getitem.
    destruct (dict_get field event) as [v|]; cbn [negb].
    + unfold bind at 1, lift at 1.
      destruct (NullabilityValidator.null_or_empty v).
      * unfold bind, get_self, record_validation_failure. rewrite IH.
        rewrite <- app_assoc. now rewrite add_failures_app.
      * rewrite IH. reflexivity.
    + rewrite IH. now rewrite <- app_assoc.
Qed.

(** The whole run of the nullability validator. *)
Lemma null_validate_run : forall event self w,
  NullabilityValidator.validate event self w =
  (Ok {| is_valid := (length (null_errors event) =? 0)%nat;
         validator_name := NullabilityValidator.name self;
         error_message :=
           match null_errors event with
           | [] => None
           | _ :: _ => Some (String.concat "; " (null_errors event))
           end;
         warnings := [] |},
   {| NullabilityValidator.name := NullabilityValidator.name self;
      NullabilityValidator.failure_count :=
        NullabilityValidator.failure_count self
        + (if (length (null_errors event) =? 0)%nat then 0 else 1) |},
   add_failures (note_entry "NullabilityValidator.validate" w)
     (null_metrics_of self NullabilityValidator.REQUIRED_NON_NULL event)).
Proof.
  intros event self w. unfold NullabilityValidator.validate.
  unfold bind at 1, entered at 1. unfold bind at 1. rewrite null_scan_spec.
  reflexivity.
Qed.

Lemma null_errors_of_length : forall fields event,
  length (null_errors_of fields event)
  = length (filter (fun field => match null_error event field with
                                 | Some _ => true
                                 | None => false
                                 end) fields).
Proof.
  induction fields as [|field rest IH]; intros event; [reflexivity|].
  cbn [null_errors_of flat_map filter].
  fold (null_errors_of rest event). rewrite length_app, IH.
  now destruct (null_error event field).
Qed.

Lemma null_errors_of_nil : forall fields event,
  null_errors_of fields event = [] <->
  Forall (fun field => null_error event field = None) fields.
Proof.
  induction fields as [|field rest IH]; intros event.
  - split; [constructor|reflexivity].
  - cbn [null_errors_of flat_map]. fold (null_errors_of rest event).
    split.
    + intros Hnil. apply app_eq_nil in Hnil as [Hhead Htail].
      constructor; [|now apply IH].
      now destruct (null_error event field).
    + intros Hall. inversion Hall as [|? ? Hhead Htail]; subst.
      rewrite Hhead. now apply IH.
Qed.


(** ** The window of the anomaly detector *)

Lemma lastn_length : forall (A : Type) n (xs : list A),
  (length (lastn n xs) <= n)%nat.
Proof. intros A n xs. unfold lastn. rewrite length_skipn. lia. Qed.

Lemma lastn_all : forall (A : Type) n (xs : list A),
  (length xs <= n)%nat -> lastn n xs = xs.
Proof.
  intros A n xs Hle. unfold lastn.
  replace (length xs - n)%nat with 0%nat by lia. reflexivity.
Qed.

Lemma lastn_app_lastn : forall (A : Type) n (xs ys : list A),
  lastn n (lastn n xs ++ ys) = lastn n (xs ++ ys).
Proof.
  intros A n xs ys.
  destruct (Nat.le_gt_cases (length xs) n) as [Hle|Hgt].
  - now rewrite (lastn_all _ n xs Hle).
  - unfold lastn. rewrite !length_app, length_skipn.
    replace (length xs - (length xs - n) + length ys - n)%nat
      with (length ys) by lia.
    rewrite !skipn_app, skipn_skipn, length_skipn. f_equal.
    + f_equal. lia.
    + f_equal. lia.
Qed.

Lemma deque_append_lastn : forall d x,
  (length (AnomalyDetector.items d) <= AnomalyDetector.maxlen d)%nat ->
  AnomalyDetector.items (AnomalyDetector.deque_append d x) =
  lastn (AnomalyDetector.maxlen d) (AnomalyDetector.items d ++ [x]).
Proof.
  intros [m xs] x Hle. unfold AnomalyDetector.deque_append, lastn.
  cbn [AnomalyDetector.items AnomalyDetector.maxlen] in *.
  assert (Hlen : length (xs ++ [x]) = (length xs + 1)%nat)
    by (rewrite length_app; reflexivity).
  destruct (Nat.ltb_spec m (length (xs ++ [x]))) as [Hlt|Hge].
  - replace (length (xs ++ [x]) - m)%nat with 1%nat by lia.
    destruct (xs ++ [x]); reflexivity.
  - replace (length (xs ++ [x]) - m)%nat with 0%nat by lia. reflexivity.
Qed.

Lemma deque_append_bounded : forall d x,
  (length (AnomalyDetector.items d) <= AnomalyDetector.maxlen d)%nat ->
  (length (AnomalyDetector.items (AnomalyDetector.deque_append d x))
   <= AnomalyDetector.maxlen (AnomalyDetector.deque_append d x))%nat.
Proof.
  intros d x Hle. rewrite (deque_append_lastn d x Hle). apply lastn_length.
Qed.

Lemma deque_append_evicts_oldest : forall d x oldest rest,
  AnomalyDetector.items d = oldest :: rest ->
  length (AnomalyDetector.items d) = AnomalyDetector.maxlen d ->
  AnomalyDetector.items (AnomalyDetector.deque_append d x) = rest ++ [x].
Proof.
  intros [m xs] x oldest rest Hitems Hfull.
  unfold AnomalyDetector.deque_append.
  cbn [AnomalyDetector.items AnomalyDetector.maxlen] in *. subst xs.
  assert (Hlt : (m <? length ((oldest :: rest) ++ [x]))%nat = true).
  { apply Nat.ltb_lt. rewrite length_app. cbn [length] in *. lia. }
  rewrite Hlt. reflexivity.
Qed.

Lemma deque_append_below_capacity : forall d x,
  (length (AnomalyDetector.items d) < AnomalyDetector.maxlen d)%nat ->
  AnomalyDetector.items (AnomalyDetector.deque_append d x)
  = AnomalyDetector.items d ++ [x].
Proof.
  intros [m xs] x Hlt. unfold AnomalyDetector.deque_append.
  cbn [AnomalyDetector.items AnomalyDetector.maxlen] in *.
  assert (Hge : (m <? length (xs ++ [x]))%nat = false).
  { apply Nat.ltb_ge. rewrite length_app. cbn [length]. lia. }
  rewrite Hge. reflexivity.
Qed.

Lemma feed_maxlen : forall values d,
  AnomalyDetector.maxlen (AnomalyDetector.feed d values)
  = AnomalyDetector.maxlen d.
Proof.
  induction values as [|x rest IH]; intros d; [reflexivity|].
  cbn [AnomalyDetector.feed fold_left].
  fold (AnomalyDetector.feed (AnomalyDetector.deque_append d x) rest).
  now rewrite IH.
Qed.

(** After any series of appends the deque holds the last [maxlen] items
    that went in, in the order they went in. *)
Lemma feed_lastn : forall values d,
  (length (AnomalyDetector.items d) <= AnomalyDetector.maxlen d)%nat ->
  AnomalyDetector.items (AnomalyDetector.feed d values) =
  lastn (AnomalyDetector.maxlen d) (AnomalyDetector.items d ++ values).
Proof.
  induction values as [|x rest IH]; intros d Hle.
  - cbn. rewrite app_nil_r. symmetry. now apply lastn_all.
  - cbn [AnomalyDetector.feed fold_left].
    fold (AnomalyDetector.feed (AnomalyDetector.deque_append d x) rest).
    rewrite IH by now apply deque_append_bounded.
    rewrite (deque_append_lastn d x Hle).
    cbn [AnomalyDetector.maxlen AnomalyDetector.deque_append].
    rewrite lastn_app_lastn, <- app_assoc. reflexivity.
Qed.

(** ** The statistics of the anomaly detector *)

Lemma sqrt_positive_variance : forall var : Q,
  (0 < var)%Q -> sqrt (Q2R var) <> 0%R.
Proof.
  intros var Hpos. apply Qlt_Rlt in Hpos. rewrite RMicromega.Q2R_0 in Hpos.
  pose proof (sqrt_lt_R0 _ Hpos). lra.
Qed.

Lemma stdev_zero_variance : forall xs,
  (2 <= length xs)%nat -> (statistics.variance_of xs == 0)%Q ->
  statistics.stdev xs = Ok 0%R.
Proof.
  intros xs Hlen Hvar. unfold statistics.stdev.
  assert (Hlt : (length xs <? 2)%nat = false) by (apply Nat.ltb_ge; lia).
  rewrite Hlt. f_equal. apply Qeq_eqR in Hvar.
  rewrite Hvar, RMicromega.Q2R_0. apply sqrt_0.
Qed.

(** The z-score is above the threshold as soon as the squared deviation is
    above the squared threshold times the variance. *)
Lemma z_score_exceeds : forall value mean var thr : Q,
  (0 <= thr)%Q -> (0 < var)%Q ->
  (thr * thr * var < (value - mean) * (value - mean))%Q ->
  (Q2R thr < Rabs ((Q2R value - Q2R mean) / sqrt (Q2R var)))%R.
Proof.
  intros value mean var thr Hthr Hvar Hlt.
  apply Qle_Rle in Hthr. apply Qlt_Rlt in Hvar. apply Qlt_Rlt in Hlt.
  rewrite RMicromega.Q2R_0 in Hthr, Hvar.
  rewrite !Q2R_mult, Q2R_minus in Hlt.
  set (t := Q2R thr) in *. set (d := (Q2R value - Q2R mean)%R) in *.
  set (v := Q2R var) in *.
  pose proof (sqrt_lt_R0 _ Hvar) as Hs.
  assert (Hss : (sqrt v * sqrt v = v)%R) by (apply sqrt_sqrt; lra).
  unfold Rdiv. rewrite Rabs_mult, (Rabs_right (/ sqrt v)).
  2:{ apply Rle_ge. left. now apply Rinv_0_lt_compat. }
  apply (Rmult_lt_reg_r (sqrt v)); [exact Hs|].
  rewrite Rmult_assoc, Rinv_l, Rmult_1_r by lra.
  apply Rsqr_incrst_0.
  - rewrite <- Rsqr_abs. unfold Rsqr.
    replace (t * sqrt v * (t * sqrt v))%R
      with (t * t * (sqrt v * sqrt v))%R by ring.
    rewrite Hss. exact Hlt.
  - apply Rmult_le_pos; lra.
  - apply Rabs_pos.
Qed.

Lemma mean_ten_and_one : forall a b : Q,
  (statistics.mean_of (repeat a 10 ++ [b]) == (10 * a + b) / 11)%Q.
Proof.
  intros a b. unfold statistics.mean_of, statistics.total, statistics.count.
  cbn. field.
Qed.

Lemma variance_ten_and_one : forall a b : Q,
  (statistics.variance_of (repeat a 10 ++ [b]) == (b - a) * (b - a) / 11)%Q.
Proof.
  intros a b. unfold statistics.variance_of.
  set (m := statistics.mean_of (repeat a 10 ++ [b])).
  assert (Hm : (m == (10 * a + b) / 11)%Q) by apply mean_ten_and_one.
  unfold statistics.total, statistics.count. cbn.
  rewrite Hm. field.
Qed.

(** Ten equal samples and one different sample: the variance is positive
    and the last sample lies more than three deviations from the mean (its
    z-score is [10 / sqrt 11]). *)
Lemma outlier_after_ten_equal : forall a b : Q, ~ (a == b)%Q ->
  (0 < statistics.variance_of (repeat a 10 ++ [b]))%Q /\
  (3 * 3 * statistics.variance_of (repeat a 10 ++ [b])
   < (b - statistics.mean_of (repeat a 10 ++ [b]))
     * (b - statistics.mean_of (repeat a 10 ++ [b])))%Q.
Proof.
  intros a b Hne.
  rewrite variance_ten_and_one, mean_ten_and_one.
  assert (Hd : ~ (b - a == 0)%Q) by (intros E; apply Hne; Lqa.lra).
  assert (Hsq : (0 < (b - a) * (b - a))%Q).
  { destruct (Q_dec (b - a) 0) as [[Hn|Hp]|He];
      [Lqa.nra|Lqa.nra|contradiction]. }
  set (s := ((b - a) * (b - a))%Q) in *.
  assert (E1 : (s / 11 == s * (1 # 11))%Q) by field.
  assert (E2 : ((b - (10 * a + b) / 11) * (b - (10 * a + b) / 11)
                == s * (100 # 121))%Q) by (unfold s; field).
  rewrite E2, E1. split; Lqa.lra.
Qed.

(** ** AnomalyDetector.detect *)

Section DetectorProperties.
Context `{PyRuntime}.

Import AnomalyDetector.

Lemma detect_insufficient : forall field value self w,
  (length (items (deque_append (value_history self) value)) < 10)%nat ->
  detect field value self w =
  (Ok {| is_valid := true;
         validator_name := name self;
         error_message := None;
         warnings := ["Insufficient samples for anomaly detection"] |},
   appended self value,
   note_entry "AnomalyDetector.detect" w).
Proof.
  intros field value self w Hlen. unfold detect.
  unfold bind, entered, get_self, set_self. cbn [value_history with_history].
  apply Nat.ltb_lt in Hlen. rewrite Hlen. reflexivity.
Qed.

(** With ten samples or more, [detect] is a three-way choice; neither
    [statistics] call raises, and the division is only reached with a
    standard deviation that is not zero. *)
Lemma detect_sufficient : forall field value self w,
  (10 <= length (items (deque_append (value_history self) value)))%nat ->
  let values := items (deque_append (value_history self) value) in
  let mean := statistics.mean_of values in
  let stdev := sqrt (Q2R (statistics.variance_of values)) in
  let z_score := Rabs ((Q2R value - Q2R mean) / stdev) in
  detect field value self w =
  if Req_dec_T stdev 0%R then
    (Ok {| is_valid := true;
           validator_name := name self;
           error_message := None;
           warnings := [] |},
     appended self value,
     note_entry "AnomalyDetector.detect" w)
  else if Rlt_dec (Q2R (std_threshold self)) z_score then
    (Ok {| is_valid := false;
           validator_name := name self;
           error_message := None;
           warnings := [anomaly_msg field value mean stdev z_score] |},
     with_failure (appended self value),
     add_failures (note_entry "AnomalyDetector.detect" w)
       [(name self, "anomaly_detected")])
  else
    (Ok {| is_valid := true;
           validator_name := name self;
           error_message := None;
           warnings := [] |},
     appended self value,
     note_entry "AnomalyDetector.detect" w).
Proof.
  intros field value self w Hlen. cbv zeta. unfold detect.
  unfold bind at 1, entered at 1. unfold bind at 1, get_self at 1.
  unfold bind at 1, set_self at 1. unfold bind at 1, get_self at 1.
  cbn [value_history with_history name std_threshold]. unfold appended.
  remember (items (deque_append (value_history self) value)) as values
    eqn:Hv.
  assert (Hlt : (length values <? 10)%nat = false)
    by (apply Nat.ltb_ge; exact Hlen).
  rewrite Hlt.
  unfold statistics.mean, statistics.stdev.
  assert (Hlt2 : (length values <? 2)%nat = false)
    by (apply Nat.ltb_ge; lia).
  rewrite Hlt2.
  destruct values as [|x xs]; [cbn in Hlen; lia|].
  unfold bind at 1, lift at 1. unfold bind at 1, lift at 1.
  destruct (Req_dec_T _ 0%R) as [Hz|Hnz]; [reflexivity|].
  unfold z_score_of, py_truediv.
  destruct (Req_dec_T _ 0%R) as [Hz|_]; [contradiction|].
  cbn [rbind]. unfold bind at 1, lift at 1.
  destruct (Rlt_dec _ _); reflexivity.
Qed.

(** Every call returns a result and puts the value into the window. *)
Lemma detect_step : forall field value self w,
  exists r self' w',
    detect field value self w = (Ok r, self', w') /\
    value_history self' = deque_append (value_history self) value /\
    name self' = name self /\
    std_threshold self' = std_threshold self /\
    window_size self' = window_size self.
Proof.
  intros field value self w.
  destruct (Nat.lt_ge_cases
              (length (items (deque_append (value_history self) value))) 10)
    as [Hlt|Hge].
  - rewrite (detect_insufficient _ _ _ _ Hlt). do 3 eexists.
    split; [reflexivity|]. cbn. auto.
  - rewrite (detect_sufficient _ _ _ _ Hge). cbv zeta.
    destruct (Req_dec_T _ _); [|destruct (Rlt_dec _ _)];
      do 3 eexists; (split; [reflexivity|]); cbn; auto.
Qed.

Lemma detect_all_run : forall field values self w,
  exists rs self' w',
    detect_all field values self w = (Ok rs, self', w') /\
    length rs = length values /\
    value_history self' = feed (value_history self) values /\
    name self' = name self /\
    std_threshold self' = std_threshold self /\
    window_size self' = window_size self.
Proof.
  intros field values. induction values as [|value rest IH]; intros self w.
  - do 3 eexists. split; [reflexivity|]. cbn. auto.
  - destruct (detect_step field value self w)
      as (r & self1 & w1 & Hd & Hh & Hn & Ht & Hw).
    destruct (IH self1 w1)
      as (rs & self2 & w2 & Hrs & Hlen & Hh2 & Hn2 & Ht2 & Hw2).
    exists (r :: rs), self2, w2.
    cbn [detect_all]. unfold bind at 1. rewrite Hd.
    unfold bind at 1. rewrite Hrs. split; [reflexivity|].
    cbn [length feed fold_left]. rewrite Hh2, Hh.
    repeat split; congruence.
Qed.

Lemma detect_all_snoc : forall field values value self w rs self1 w1 r self2 w2,
  detect_all field values self w = (Ok rs, self1, w1) ->
  detect field value self1 w1 = (Ok r, self2, w2) ->
  detect_all field (values ++ [value]) self w = (Ok (rs ++ [r]), self2, w2).
Proof.
  intros field values value. induction values as [|v rest IH];
    intros self w rs self1 w1 r self2 w2 Hall Hlast.
  - cbn in Hall. injection Hall as Hrs Hs Hw. subst rs self1 w1.
    cbn [app detect_all]. unfold bind at 1. rewrite Hlast. reflexivity.
  - cbn [app detect_all] in *. unfold bind at 1 in Hall. unfold bind at 1.
    destruct (detect field v self w) as [[[r0|e] s0] w0]; [|discriminate].
    unfold bind at 1 in Hall. unfold bind at 1.
    destruct (detect_all field rest s0 w0) as [[[rs0|e] s1] w1'] eqn:Hrest;
      [|discriminate].
    cbn in Hall. injection Hall as Hrs Hs Hw. subst rs s1 w1'.
    rewrite (IH s0 w0 rs0 self1 w1 r self2 w2 Hrest Hlast). reflexivity.
Qed.

(** A sample whose squared deviation is above the squared threshold times
    a positive variance is flagged. *)
Lemma detect_flags_outlier : forall field value self w,
  (10 <= length (items (deque_append (value_history self) value)))%nat ->
  (0 <= std_threshold self)%Q ->
  (0 < statistics.variance_of
         (items (deque_append (value_history self) value)))%Q ->
  (std_threshold self * std_threshold self
   * statistics.variance_of (items (deque_append (value_history self) value))
   < (value - statistics.mean_of
                (items (deque_append (value_history self) value)))
     * (value - statistics.mean_of
                  (items (deque_append (value_history self) value))))%Q ->
  exists r self' w' z,
    detect field value self w = (Ok r, self', w') /\
    is_valid r = false /\
    z_score_of value
      (statistics.mean_of (items (deque_append (value_history self) value)))
      (sqrt (Q2R (statistics.variance_of
                    (items (deque_append (value_history self) value)))))
    = Ok z /\
    (Q2R (std_threshold self) < z)%R /\
    length (warnings r) = 1%nat.
Proof.
  intros field value self w Hlen Hthr Hvar Hfar.
  pose proof (sqrt_positive_variance _ Hvar) as Hnz.
  pose proof (z_score_exceeds _ _ _ _ Hthr Hvar Hfar) as Hz.
  rewrite (detect_sufficient _ _ _ _ Hlen). cbv zeta.
  unfold z_score_of, py_truediv.
  destruct (Req_dec_T _ 0%R) as [Hzero|_]; [contradiction|].
  destruct (Rlt_dec _ _) as [_|Hnot]; [|contradiction].
  cbn [rbind]. do 4 eexists. repeat split. exact Hz.
Qed.

End DetectorProperties.

Section DetectorClaims.
Context `{PyRuntime}.

Import AnomalyDetector.

Lemma detect_all_flags_last : forall field values value self w,
  (10 <= length (items (deque_append (feed (value_history self) values)
                                     value)))%nat ->
  (0 <= std_threshold self)%Q ->
  (0 < statistics.variance_of
         (items (deque_append (feed (value_history self) values) value)))%Q ->
  (std_threshold self * std_threshold self
   * statistics.variance_of
       (items (deque_append (feed (value_history self) values) value))
   < (value - statistics.mean_of
                (items (deque_append (feed (value_history self) values)
                                     value)))
     * (value - statistics.mean_of
                  (items (deque_append (feed (value_history self) values)
                                       value))))%Q ->
  exists rs r self' w' z,
    detect_all field (values ++ [value]) self w = (Ok (rs ++ [r]), self', w')
    /\ length rs = length values
    /\ is_valid r = false
    /\ z_score_of value
         (statistics.mean_of
            (items (deque_append (feed (value_history self) values) value)))
         (sqrt (Q2R (statistics.variance_of
            (items (deque_append (feed (value_history self) values) value)))))
       = Ok z
    /\ (Q2R (std_threshold self) < z)%R.
Proof.
  intros field values value self w Hlen Hthr Hvar Hfar.
  destruct (detect_all_run field values self w)
    as (rs & self1 & w1 & Hall & Hrs & Hh & _ & Ht & _).
  rewrite <- Hh, <- Ht in *.
  destruct (detect_flags_outlier field value self1 w1 Hlen Hthr Hvar Hfar)
    as (r & self2 & w2 & z & Hd & Hvalid & Hz & Hgt & _).
  exists rs, r, self2, w2, z. repeat split; auto.
  exact (detect_all_snoc _ _ _ _ _ _ _ _ _ _ _ Hall Hd).
Qed.



Lemma Q2R_three : Q2R 3 = 3%R.
Proof. unfold Q2R. cbn. lra. Qed.


End DetectorClaims.

(** ** DataValidator.validate *)

Lemma int_typed_not_null : forall v,
  isinstance v TInt = true -> NullabilityValidator.null_or_empty v = false.
Proof. intros [] Hi; try discriminate; reflexivity. Qed.

Lemma null_errors_set_user_id : forall event v1 v2,
  NullabilityValidator.null_or_empty v1 = false ->
  NullabilityValidator.null_or_empty v2 = false ->
  null_errors (dict_set "user_id" v1 event)
  = null_errors (dict_set "user_id" v2 event).
Proof.
  intros event v1 v2 H1 H2.
  unfold null_errors, null_errors_of.
  cbn [flat_map NullabilityValidator.REQUIRED_NON_NULL].
  unfold null_error. rewrite !dict_get_set_same.
  repeat rewrite dict_get_set_other by reflexivity.
  now rewrite H1, H2.
Qed.

Section OrchestratorProperties.
Context `{PyRuntime}.

Lemma schema_accept_message : forall event msg,
  EventSchema.validate event = Ok (true, msg) -> msg = None.
Proof.
  intros event msg. unfold EventSchema.validate.
  destruct (EventSchema.check_required _ event) eqn:Hc; [discriminate|].
  destruct (required_fields_present _ Hc)
    as (id & et & uid & ts & sid & props & dv & geo &
        Hid & Het & Huid & Hint & Hts & Hsid & Hprops & Hdv & Hgeo).
  unfold getitem, dict_has. rewrite Het, Hdv, Hgeo, Hts, Huid. cbn [rbind].
  destruct (int_typed_le _ Hint) as [b Hb]. rewrite Hb.
  destruct (dict_get "source" event); cbn [rbind]; split_ifs;
    intros [= <-]; reflexivity.
Qed.

Lemma schema_validator_run : forall event verdict self w,
  EventSchema.validate event = Ok verdict ->
  SchemaValidator.validate event self w =
  (Ok (schema_result self verdict),
   (if fst verdict then self
    else {| SchemaValidator.name := SchemaValidator.name self;
            SchemaValidator.failure_count :=
              SchemaValidator.failure_count self + 1 |}),
   (if fst verdict then note_entry "SchemaValidator.validate" w
    else add_failures (note_entry "SchemaValidator.validate" w)
           [(SchemaValidator.name self, "schema_violation")])).
Proof.
  intros event [b msg] self w Hv. unfold SchemaValidator.validate.
  unfold bind at 1, entered at 1. unfold bind at 1, lift at 1. rewrite Hv.
  unfold bind at 1, get_self at 1. cbn [fst snd].
  destruct b; reflexivity.
Qed.

(** The price check once [properties] is known to be a mapping. *)
Lemma check_price_run : forall event props results self w,
  dict_get "properties" event = Some (PDict props) ->
  DataValidator.check_price event results self w =
  match price_of event with
  | Some value =>
      match AnomalyDetector.detect "price" value
              (DataValidator.anomaly_detector self) w with
      | (Ok r, detector, w') =>
          (Ok (results ++ [r]),
           DataValidator.set_anomaly_detector detector self, w')
      | (Raise e, detector, w') =>
          (Raise e, DataValidator.set_anomaly_detector detector self, w')
      end
  | None => (Ok results, self, w)
  end.
Proof.
  intros event props results self w Hprops.
  unfold DataValidator.check_price, DataValidator.has_price, price_of,
    properties_of, dict_has, getitem.
  rewrite Hprops. cbn [rbind py_contains]. unfold dict_has.
  unfold bind at 1, lift at 1.
  destruct (dict_get "price" props) as [price|] eqn:Hprice; [|reflexivity].
  unfold bind at 1, lift at 1. unfold bind at 1, lift at 1.
  cbn [py_getitem]. unfold getitem. rewrite Hprice.
  destruct (num_of price) as [value|]; [|reflexivity].
  unfold bind at 1, on_attr at 1.
  destruct (AnomalyDetector.detect "price" value _ w) as [[[r|e] d] w'];
    reflexivity.
Qed.

(** The run of the orchestrator on an event the schema check rejects. *)
Lemma validate_rejected_run : forall event msg self w,
  EventSchema.validate event = Ok (false, msg) ->
  DataValidator.validate event self w =
  (Ok (false,
       [schema_result (DataValidator.schema_validator self) (false, msg)]),
   DataValidator.set_schema_validator
     {| SchemaValidator.name :=
          SchemaValidator.name (DataValidator.schema_validator self);
        SchemaValidator.failure_count :=
          SchemaValidator.failure_count (DataValidator.schema_validator self)
          + 1 |} self,
   add_failures (note_entry "SchemaValidator.validate" w)
     [(SchemaValidator.name (DataValidator.schema_validator self),
       "schema_violation")]).
Proof.
  intros event msg self w Hv. unfold DataValidator.validate.
  unfold bind at 1, on_attr at 1.
  rewrite (schema_validator_run _ _ _ _ Hv). reflexivity.
Qed.

(** The run of the orchestrator on an event the schema check accepts. *)
Lemma validate_accepted_run : forall event self w,
  EventSchema.validate event = Ok (true, None) ->
  exists extra self' w',
    DataValidator.validate event self w =
    (Ok ((length (null_errors event) =? 0)%nat,
         schema_result (DataValidator.schema_validator self) (true, None)
         :: range_result (DataValidator.range_validator self) event
         :: nullability_result (DataValidator.nullability_validator self)
              event
         :: extra),
     self', w') /\
    DataValidator.validation_results self' =
      schema_result (DataValidator.schema_validator self) (true, None)
      :: range_result (DataValidator.range_validator self) event
      :: nullability_result (DataValidator.nullability_validator self) event
      :: extra /\
    match price_of event with
    | Some value =>
        exists r w0,
          extra = [r] /\
          fst (fst (AnomalyDetector.detect "price" value
                      (DataValidator.anomaly_detector self) w0)) = Ok r
    | None =>
        extra = [] /\
        DataValidator.anomaly_detector self'
        = DataValidator.anomaly_detector self
    end.
Proof.
  intros event self w Hv.
  destruct (schema_accepted_properties _ Hv) as [props Hprops].
  unfold DataValidator.validate.
  unfold bind at 1, on_attr at 1.
  rewrite (schema_validator_run _ _ _ _ Hv).
  cbn [fst snd negb is_valid schema_result].
  unfold bind at 1, on_attr at 1. rewrite range_validate_run.
  unfold bind at 1, on_attr at 1. rewrite null_validate_run.
  unfold bind at 1. rewrite (check_price_run _ _ _ _ _ Hprops).
  destruct (price_of event) as [value|].
  - match goal with
    | |- context [AnomalyDetector.detect "price" value ?d ?w0] =>
        destruct (detect_step "price" value d w0)
          as (r & d' & w1 & Hd & _); rewrite Hd;
        exists [r]; do 2 eexists; split; [reflexivity|];
        split; [reflexivity|]; exists r, w0; split; [reflexivity|];
        cbn [DataValidator.anomaly_detector
             DataValidator.set_nullability_validator
             DataValidator.set_range_validator
             DataValidator.set_schema_validator] in *;
        now rewrite Hd
    end.
  - exists []. do 2 eexists. split; [reflexivity|].
    split; [reflexivity|]. split; reflexivity.
Qed.


(** C2.  On an event that fails the schema check the orchestrator returns
    [false] and a sequence holding the schema result alone.  Only the
    schema validator was entered; the range validator, the nullability
    validator, the anomaly detector with its window, and the retained
    results are as they were, and the one metric recorded is the schema
    violation. *)
Theorem schema_failure_returns_schema_result_alone :
  forall event msg self w,
  EventSchema.validate event = Ok (false, msg) ->
  exists schema_r self' w',
    DataValidator.validate event self w = (Ok (false, [schema_r]), self', w')
    /\ schema_r
       = schema_result (DataValidator.schema_validator self) (false, msg)
    /\ is_valid schema_r = false
    /\ DataValidator.range_validator self'
       = DataValidator.range_validator self
    /\ DataValidator.nullability_validator self'
       = DataValidator.nullability_validator self
    /\ DataValidator.anomaly_detector self'
       = DataValidator.anomaly_detector self
    /\ invocations w' = invocations w ++ ["SchemaValidator.validate"]
    /\ validation_failures_total w'
       = validation_failures_total w
         ++ [(SchemaValidator.name (DataValidator.schema_validator self),
              "schema_violation")].
Proof.
  intros event msg self w Hv. do 3 eexists.
  split; [exact (validate_rejected_run event msg self w Hv)|].
  repeat split.
Qed.

(** On an accepted event the orchestrator retains the result sequence it
    returns, and the summary is computed from it. *)
Lemma get_summary_after_accepted_event : forall event self w,
  EventSchema.validate event = Ok (true, None) ->
  exists overall results self' w',
    DataValidator.validate event self w = (Ok (overall, results), self', w')
    /\ DataValidator.get_summary self'
       = {| Summary.total_validations := length results;
            Summary.passed :=
              list_sum (map (fun _ => 1) (filter is_valid results));
            Summary.warnings :=
              list_sum (map (fun r => length (warnings r)) results);
            Summary.validators := map validator_name results |}.
Proof.
  intros event self w Hv.
  destruct (validate_accepted_run event self w Hv)
    as (extra & self' & w' & Hrun & Hkept & _).
  do 2 eexists. exists self', w'. split; [exact Hrun|].
  unfold DataValidator.get_summary. now rewrite Hkept.
Qed.

(** On a rejected event the early return leaves the retained results, and
    with them the summary, as they were before the call. *)
Lemma get_summary_unchanged_by_rejected_event : forall event msg self w,
  EventSchema.validate event = Ok (false, msg) ->
  DataValidator.get_summary (snd (fst (DataValidator.validate event self w)))
  = DataValidator.get_summary self.
Proof.
  intros event msg self w Hv.
  rewrite (validate_rejected_run event msg self w Hv). reflexivity.
Qed.

(** C9, at its failing input.  A fresh orchestrator that validates the
    empty record returns one result, the schema validator's; the summary
    taken afterwards counts no check and lists no validator. *)
Theorem get_summary_after_rejected_event :
  exists schema_r self' w',
    DataValidator.validate [] DataValidator.init world0
    = (Ok (false, [schema_r]), self', w')
    /\ validator_name schema_r = "schema_validator"
    /\ DataValidator.get_summary self'
       = {| Summary.total_validations := 0;
            Summary.passed := 0;
            Summary.warnings := 0;
            Summary.validators := [] |}.
Proof.
  do 3 eexists.
  split; [apply (validate_rejected_run []
                   (Some "Missing required field: event_id")); reflexivity|].
  split; reflexivity.
Qed.

(** C10.  Take a record that is accepted by the schema check with some
    value for [user_id].  With [True] in its place the record is accepted
    as well: [True] is an instance of [int] and is not at or below zero.
    And when the orchestrator's overall verdict on the first record is
    [true], so it is on the second. *)
Theorem schema_accepts_true_as_user_id : forall event v self w,
  EventSchema.validate (dict_set "user_id" v event) = Ok (true, None) ->
  isinstance (PBool true) TInt = true /\
  py_le (PBool true) (PInt 0) = Ok false /\
  EventSchema.validate (dict_set "user_id" (PBool true) event)
  = Ok (true, None) /\
  (forall results self' w',
     DataValidator.validate (dict_set "user_id" v event) self w
     = (Ok (true, results), self', w') ->
     exists results' self'' w'',
       DataValidator.validate (dict_set "user_id" (PBool true) event) self w
       = (Ok (true, results'), self'', w'')).
Proof.
  intros event v self w Hv.
  destruct (schema_accepts_positive_only _ Hv) as (uid & Hget & Hint & Hle).
  rewrite dict_get_set_same in Hget. injection Hget as <-.
  assert (Htrue : EventSchema.validate (dict_set "user_id" (PBool true) event)
                  = Ok (true, None)).
  { rewrite <- Hv. apply schema_validate_set_user_id; auto. }
  split; [reflexivity|]. split; [reflexivity|]. split; [exact Htrue|].
  intros results self' w' Hrun.
  destruct (validate_accepted_run _ self w Hv)
    as (extra & s1 & w1 & Hrun1 & _).
  rewrite Hrun1 in Hrun. injection Hrun as Hoverall _ _ _.
  destruct (validate_accepted_run _ self w Htrue)
    as (extra' & s2 & w2 & Hrun2 & _).
  rewrite (null_errors_set_user_id event (PBool true) v) in Hrun2
    by (try reflexivity; now apply int_typed_not_null).
  rewrite Hoverall in Hrun2. eauto.
Qed.

End OrchestratorProperties.

(** ** The claims at concrete inputs

    Run with [sample_runtime]; the events are those of the
    specification's end-to-end properties. *)

#[local] Existing Instance sample_runtime.


(** C2 at the purchase event with the device [smartwatch]. *)
Lemma smartwatch_event_stops_at_schema :
  exists schema_r self' w',
    DataValidator.validate smartwatch_event DataValidator.init world0
    = (Ok (false, [schema_r]), self', w')
    /\ error_message schema_r = Some "Invalid device: smartwatch"
    /\ DataValidator.anomaly_detector self' = AnomalyDetector.default
    /\ invocations w' = ["SchemaValidator.validate"]
    /\ validation_failures_total w'
       = [("schema_validator", "schema_violation")].
Proof.
  destruct (schema_failure_returns_schema_result_alone (H := sample_runtime)
              smartwatch_event (Some "Invalid device: smartwatch")
              DataValidator.init world0 eq_refl)
    as (schema_r & self' & w' & Hrun & Hschema & _ & _ & _ & Hdetector &
        Hentered & Hmetrics).
  exists schema_r, self', w'. split; [exact Hrun|].
  split; [rewrite Hschema; reflexivity|].
  split; [exact Hdetector|]. split; [exact Hentered|exact Hmetrics].
Defined.





(** C9: the summary is stale.  An orchestrator that accepted the purchase
    event and then rejects the empty record returns one result for the
    latter, and its summary still lists the four checks of the former. *)
Example get_summary_stale_after_rejected_event :
  let first :=
    DataValidator.validate (purchase_event (PInt 12345) price_49_99)
      DataValidator.init world0 in
  let second := DataValidator.validate [] (snd (fst first)) (snd first) in
  (exists schema_r, fst (fst second) = Ok (false, [schema_r]))
  /\ Summary.validators (DataValidator.get_summary (snd (fst second)))
     = ["schema_validator"; "range_validator"; "nullability_validator";
        "anomaly_detector"].
Proof.
  cbv zeta. split; [eexists|]; vm_compute; reflexivity.
Qed.

(** C10 at the purchase event with [user_id = True]. *)
Lemma purchase_event_with_true_user_id :
  EventSchema.validate (purchase_event (PBool true) price_49_99)
  = Ok (true, None)
  /\ exists results self' w',
       DataValidator.validate (purchase_event (PBool true) price_49_99)
         DataValidator.init world0
       = (Ok (true, results), self', w').
Proof.
  destruct (schema_accepts_true_as_user_id (H := sample_runtime)
              (purchase_event (PInt 12345) price_49_99) (PInt 12345)
              DataValidator.init world0 eq_refl)
    as (_ & _ & Hschema & Horchestrator).
  split; [exact Hschema|].
  destruct (validate_accepted_run (H := sample_runtime)
              (purchase_event (PInt 12345) price_49_99)
              DataValidator.init world0 eq_refl)
    as (extra & self1 & w1 & Hrun & _).
  exact (Horchestrator _ _ _ Hrun).
Defined.

(** * Further properties *)

(** ** Dictionaries *)

Lemma dict_get_remove_same : forall k d, dict_get k (dict_remove k d) = None.
Proof.
  intros k d. induction d as [|[k' v] rest IH]; [reflexivity|].
  cbn [dict_remove]. destruct (String.eqb k k') eqn:E; [exact IH|].
  cbn [dict_get]. now rewrite E.
Qed.

Lemma dict_get_remove_other : forall k k' d,
  String.eqb k' k = false -> dict_get k' (dict_remove k d) = dict_get k' d.
Proof.
  intros k k' d Hne. induction d as [|[k0 v] rest IH]; [reflexivity|].
  cbn [dict_remove]. destruct (String.eqb k k0) eqn:E.
  - apply String.eqb_eq in E. subst k0. cbn [dict_get]. now rewrite Hne.
  - cbn [dict_get]. now rewrite IH.
Qed.

(** ** EventSchema.validate, field by field *)

Lemma dict_set_twice : forall k v1 v2 d,
  dict_set k v2 (dict_set k v1 d) = dict_set k v2 d.
Proof.
  intros k v1 v2 d. induction d as [|[k' v'] rest IH]; cbn [dict_set].
  - now rewrite String.eqb_refl.
  - destruct (String.eqb k k') eqn:E; cbn [dict_set]; rewrite E;
      [reflexivity|now rewrite IH].
Qed.

Lemma replace_Z_app : forall a b,
  replace_Z (a ++ b) = (replace_Z a ++ replace_Z b)%string.
Proof.
  intros a b. induction a as [|c a IH]; [reflexivity|].
  cbn [String.append replace_Z]. rewrite IH.
  destruct (Ascii.eqb c "Z"); reflexivity.
Qed.

(** ** Blank strings *)

Lemma lstrip_all_space : forall s, all_space s = true -> lstrip s = "".
Proof.
  induction s as [|c s IH]; [reflexivity|].
  cbn [all_space lstrip]. intros Hs. apply andb_true_iff in Hs as [Hc Hs].
  rewrite Hc. now apply IH.
Qed.

Lemma lstrip_keeps_ink : forall s,
  all_space s = false -> all_space (lstrip s) = false.
Proof.
  induction s as [|c s IH]; [discriminate|].
  cbn [all_space lstrip]. destruct (is_space c) eqn:Hc.
  - cbn [andb]. exact IH.
  - intros _. cbn [all_space]. now rewrite Hc.
Qed.

Lemma all_space_rev_onto : forall s acc,
  all_space (str_rev_onto s acc) = all_space s && all_space acc.
Proof.
  induction s as [|c s IH]; intros acc; [reflexivity|].
  cbn [str_rev_onto all_space]. rewrite IH. cbn [all_space].
  destruct (is_space c), (all_space s), (all_space acc); reflexivity.
Qed.

Lemma all_space_rev : forall s, all_space (str_rev s) = all_space s.
Proof.
  intros s. unfold str_rev. rewrite all_space_rev_onto. cbn [all_space].
  now rewrite andb_true_r.
Qed.

(** [s.strip() == ''] holds exactly when [s] is all whitespace. *)
Lemma strip_empty_iff_all_space : forall s,
  String.eqb (strip s) "" = all_space s.
Proof.
  intros s. unfold strip, rstrip.
  destruct (all_space s) eqn:Hs.
  - now rewrite (lstrip_all_space s Hs).
  - apply lstrip_keeps_ink in Hs. rewrite <- all_space_rev in Hs.
    apply lstrip_keeps_ink in Hs. rewrite <- all_space_rev in Hs.
    destruct (str_rev (lstrip (str_rev (lstrip s)))); [discriminate|].
    reflexivity.
Qed.

Lemma dash_is_ink : forall s, str_contains "-" s = true -> all_space s = false.
Proof.
  induction s as [|c s IH]; [discriminate|].
  cbn [str_contains all_space String.prefix].
  destruct (ascii_dec "-" c) as [<-|Hne].
  - intros _. reflexivity.
  - cbn [orb]. intros Hs. rewrite (IH Hs). now rewrite andb_false_r.
Qed.

Lemma listed_string_is_ink : forall s l,
  forallb (fun x => negb (all_space x)) l = true ->
  existsb (String.eqb s) l = true -> all_space s = false.
Proof.
  intros s l. induction l as [|x l IH]; [discriminate|].
  cbn [forallb existsb]. intros Hl Hs.
  apply andb_true_iff in Hl as [Hx Hl].
  apply orb_true_iff in Hs as [Hs|Hs].
  - apply String.eqb_eq in Hs. subst x. now apply negb_true_iff.
  - now apply IH.
Qed.

Section SchemaFields.
Context `{PyRuntime}.


(** What acceptance says about the fields. *)
Lemma schema_accepted_facts : forall event,
  EventSchema.validate event = Ok (true, None) ->
  EventSchema.check_required EventSchema.REQUIRED_FIELDS event = None /\
  exists et uid ts dv geo,
    dict_get "event_type" event = Some (PStr et) /\
    dict_get "user_id" event = Some uid /\
    dict_get "timestamp" event = Some (PStr ts) /\
    dict_get "device" event = Some (PStr dv) /\
    dict_get "geo_location" event = Some (PStr geo) /\
    py_in_strs (PStr et) EventSchema.VALID_EVENT_TYPES = true /\
    py_in_strs (PStr dv) EventSchema.VALID_DEVICE_TYPES = true /\
    str_contains "-" geo = true /\
    match dict_get "source" event with
    | Some source => py_in_strs source EventSchema.VALID_SOURCES = true
    | None => True
    end /\
    fromisoformat_ok (replace_Z ts) = true /\
    py_le uid (PInt 0) = Ok false.
Proof.
  intros event. unfold EventSchema.validate.
  destruct (EventSchema.check_required _ event) eqn:Hc; [discriminate|].
  destruct (required_fields_present _ Hc)
    as (id & et & uid & ts & sid & props & dv & geo &
        Hid & Het & Huid & Hint & Hts & Hsid & Hprops & Hdv & Hgeo).
  unfold getitem, dict_has. rewrite Het, Hdv, Hgeo, Hts, Huid. cbn [rbind].
  destruct (int_typed_le _ Hint) as [b Hb]. rewrite Hb.
  intros Hv. split; [reflexivity|]. exists et, uid, ts, dv, geo.
  repeat (split; [assumption|]).
  revert Hv. cbn [isinstance type_of negb orb EventSchema.timestamp_parses].
  destruct (py_in_strs (PStr et) _); [|discriminate].
  destruct (py_in_strs (PStr dv) _); [|discriminate]. cbn [negb].
  destruct (str_contains "-" geo); [|discriminate]. cbn [negb].
  destruct (dict_get "source" event) as [source|]; cbn [rbind].
  - destruct (py_in_strs source _); [|discriminate].
    destruct (fromisoformat_ok _); [|discriminate]. cbn [negb].
    destruct b; [discriminate|]. intros _. repeat split; auto.
  - destruct (fromisoformat_ok _); [|discriminate]. cbn [negb].
    destruct b; [discriminate|]. intros _. repeat split; auto.
Qed.

Lemma check_required_set_typed : forall fields f v event,
  (forall ty, In (f, ty) fields -> isinstance v ty = true) ->
  EventSchema.check_required fields event = None ->
  EventSchema.check_required fields (dict_set f v event) = None.
Proof.
  induction fields as [|[g ty] rest IH]; intros f v event Hty Hc;
    [reflexivity|].
  cbn [EventSchema.check_required] in *.
  destruct (String.eqb g f) eqn:E.
  - apply String.eqb_eq in E. subst g. rewrite dict_get_set_same.
    rewrite (Hty ty (or_introl eq_refl)).
    destruct (dict_get f event) as [v0|]; [|discriminate].
    destruct (isinstance v0 ty); [|discriminate].
    apply IH; [|exact Hc]. intros ty' Hin. apply Hty. now right.
  - rewrite dict_get_set_other by exact E.
    destruct (dict_get g event) as [v0|]; [|discriminate].
    destruct (isinstance v0 ty); [|discriminate].
    apply IH; [|exact Hc]. intros ty' Hin. apply Hty. now right.
Qed.

Lemma required_type_unique : forall f ty ty',
  In (f, ty) EventSchema.REQUIRED_FIELDS ->
  In (f, ty') EventSchema.REQUIRED_FIELDS -> ty = ty'.
Proof.
  intros f ty ty' H1 H2. cbn in H1, H2.
  repeat (destruct H1 as [H1|H1]; [injection H1 as <- <-|]);
    try contradiction;
    repeat (destruct H2 as [H2|H2];
            [try discriminate; injection H2 as <-; reflexivity|]);
    contradiction.
Qed.

Lemma check_required_set_other : forall fields k v event,
  forallb (fun field => negb (String.eqb (fst field) k)) fields = true ->
  EventSchema.check_required fields (dict_set k v event)
  = EventSchema.check_required fields event.
Proof.
  induction fields as [|[g ty] rest IH]; intros k v event Hk; [reflexivity|].
  cbn [forallb fst] in Hk. apply andb_true_iff in Hk as [Hg Hrest].
  apply negb_true_iff in Hg.
  cbn [EventSchema.check_required]. rewrite dict_get_set_other by exact Hg.
  destruct (dict_get g event) as [v0|]; [|reflexivity].
  destruct (isinstance v0 ty); [|reflexivity]. now apply IH.
Qed.

Lemma check_required_remove_other : forall fields k event,
  forallb (fun field => negb (String.eqb (fst field) k)) fields = true ->
  EventSchema.check_required fields (dict_remove k event)
  = EventSchema.check_required fields event.
Proof.
  induction fields as [|[g ty] rest IH]; intros k event Hk; [reflexivity|].
  cbn [forallb fst] in Hk. apply andb_true_iff in Hk as [Hg Hrest].
  apply negb_true_iff in Hg.
  cbn [EventSchema.check_required]. rewrite dict_get_remove_other by exact Hg.
  destruct (dict_get g event) as [v0|]; [|reflexivity].
  destruct (isinstance v0 ty); [|reflexivity]. now apply IH.
Qed.

Lemma check_required_remove : forall fields f event,
  EventSchema.check_required fields event = None ->
  In f (map fst fields) ->
  EventSchema.check_required fields (dict_remove f event)
  = Some ("Missing required field: " ++ f)%string.
Proof.
  induction fields as [|[g ty] rest IH]; intros f event Hc Hin;
    [contradiction|].
  cbn [EventSchema.check_required] in *.
  destruct (String.eqb g f) eqn:E.
  - apply String.eqb_eq in E. subst g. now rewrite dict_get_remove_same.
  - rewrite dict_get_remove_other by exact E.
    destruct (dict_get g event) as [v0|]; [|discriminate].
    destruct (isinstance v0 ty); [|discriminate].
    apply IH; [exact Hc|]. destruct Hin as [Heq|Hin]; [|exact Hin].
    cbn in Heq. subst g. now rewrite String.eqb_refl in E.
Qed.

Lemma check_required_set_mistyped : forall fields f ty v event,
  EventSchema.check_required fields event = None ->
  In (f, ty) fields ->
  (forall ty', In (f, ty') fields -> ty' = ty) ->
  isinstance v ty = false ->
  EventSchema.check_required fields (dict_set f v event)
  = Some ("Invalid type for " ++ f ++ ": expected " ++ type_name ty
          ++ ", got " ++ type_name (type_of v))%string.
Proof.
  induction fields as [|[g ty0] rest IH]; intros f ty v event Hc Hin Huniq Hbad;
    [contradiction|].
  cbn [EventSchema.check_required] in *.
  destruct (String.eqb g f) eqn:E.
  - apply String.eqb_eq in E. subst g. rewrite dict_get_set_same.
    rewrite (Huniq ty0 (or_introl eq_refl)), Hbad. reflexivity.
  - rewrite dict_get_set_other by exact E.
    destruct (dict_get g event) as [v0|]; [|discriminate].
    destruct (isinstance v0 ty0); [|discriminate].
    apply IH; auto.
    + destruct Hin as [Heq|Hin]; [|exact Hin].
      injection Heq as -> _. now rewrite String.eqb_refl in E.
    + intros ty' Hin'. apply Huniq. now right.
Qed.


(** X2.  Deleting any one required field from an accepted record gives the
    verdict [(False, "Missing required field: f")] for that very field. *)
Theorem missing_required_field_is_named : forall event field,
  EventSchema.validate event = Ok (true, None) ->
  In field (map fst EventSchema.REQUIRED_FIELDS) ->
  EventSchema.validate (dict_remove field event)
  = Ok (false, Some ("Missing required field: " ++ field)%string).
Proof.
  intros event field Hacc Hin.
  destruct (schema_accepted_facts _ Hacc) as (Hc & _).
  unfold EventSchema.validate.
  now rewrite (check_required_remove _ _ _ Hc Hin).
Qed.

(** X3.  Giving a required field of an accepted record a value that is not an
    instance of the field's type gives the verdict [(False, "Invalid type
    for f: expected T, got T'")], with the names of the required and of
    the actual type. *)
Theorem wrong_type_is_reported : forall event field ty v,
  EventSchema.validate event = Ok (true, None) ->
  In (field, ty) EventSchema.REQUIRED_FIELDS ->
  isinstance v ty = false ->
  EventSchema.validate (dict_set field v event)
  = Ok (false,
        Some ("Invalid type for " ++ field ++ ": expected " ++ type_name ty
              ++ ", got " ++ type_name (type_of v))%string).
Proof.
  intros event field ty v Hacc Hin Hbad.
  destruct (schema_accepted_facts _ Hacc) as (Hc & _).
  unfold EventSchema.validate.
  rewrite (check_required_set_mistyped _ _ _ _ _ Hc Hin); auto.
  intros ty' Hin'. exact (required_type_unique _ _ _ Hin' Hin).
Qed.

(** X4.  A key that is neither a required field nor [source] has no effect on
    the verdict, whatever its value and whatever the record. *)
Theorem unknown_keys_are_ignored : forall event key v,
  existsb (String.eqb key) CONSULTED_KEYS = false ->
  EventSchema.validate (dict_set key v event) = EventSchema.validate event.
Proof.
  intros event key v Hkey. unfold CONSULTED_KEYS in Hkey.
  cbn [existsb map app fst EventSchema.REQUIRED_FIELDS] in Hkey.
  repeat match type of Hkey with
  | (_ || _) = false => apply orb_false_elim in Hkey as [?Hk Hkey]
  end.
  repeat match goal with
  | Hk : (key =? _) = false |- _ => rewrite String.eqb_sym in Hk
  end.
  unfold EventSchema.validate.
  rewrite check_required_set_other.
  2:{ cbn [forallb fst EventSchema.REQUIRED_FIELDS].
      repeat match goal with
             | Hk : (_ =? key) = false |- _ => rewrite Hk; clear Hk
             end. reflexivity. }
  unfold getitem, dict_has.
  repeat rewrite dict_get_set_other by assumption. reflexivity.
Qed.

Lemma required_str_field : forall field v ty,
  In field ["event_type"; "device"; "geo_location"; "timestamp"; "event_id";
            "session_id"] ->
  isinstance v TStr = true ->
  In (field, ty) EventSchema.REQUIRED_FIELDS -> isinstance v ty = true.
Proof.
  intros field v ty Hf Hv Hin. cbn in Hf, Hin.
  repeat (destruct Hf as [<-|Hf];
          [repeat (destruct Hin as [Heq|Hin];
                   [try discriminate; injection Heq as <-; exact Hv|]);
           contradiction|]).
  contradiction.
Qed.

(** The steps every proof about a changed field of an accepted event
    starts with. *)
Ltac changed_field Hacc field v :=
  let Hc := fresh "Hc" in
  destruct (schema_accepted_facts _ Hacc)
    as (Hc & ?et & ?uid & ?ts & ?dv & ?geo & ?Het & ?Huid & ?Hts & ?Hdv &
        ?Hgeo & ?Hetv & ?Hdvv & ?Hgeov & ?Hsrc & ?Htsv & ?Hle);
  unfold EventSchema.validate;
  rewrite (check_required_set_typed _ field v _)
    by first [ exact Hc
             | intros ? ?; eapply (required_str_field field);
               [cbn; tauto|reflexivity|eassumption] ];
  unfold getitem, dict_has;
  rewrite ?dict_get_set_same;
  repeat rewrite dict_get_set_other by reflexivity;
  repeat match goal with
  | Hget : dict_get ?k ?e = Some _ |- context [dict_get ?k ?e] =>
      rewrite Hget
  end;
  cbn [rbind].

(** X5.  An accepted record whose [event_type] is changed to a string outside
    [VALID_EVENT_TYPES] is rejected with ["Invalid event_type: s"]. *)
Theorem event_type_outside_enumeration : forall event s,
  EventSchema.validate event = Ok (true, None) ->
  existsb (String.eqb s) EventSchema.VALID_EVENT_TYPES = false ->
  EventSchema.validate (dict_set "event_type" (PStr s) event)
  = Ok (false, Some ("Invalid event_type: " ++ s)%string).
Proof.
  intros event s Hacc Hout. changed_field Hacc "event_type" (PStr s).
  cbn [py_in_strs]. rewrite Hout. reflexivity.
Qed.

(** X6.  An accepted record whose [device] is changed to a string outside
    [VALID_DEVICE_TYPES] is rejected with ["Invalid device: d"]. *)
Theorem device_outside_enumeration : forall event d,
  EventSchema.validate event = Ok (true, None) ->
  existsb (String.eqb d) EventSchema.VALID_DEVICE_TYPES = false ->
  EventSchema.validate (dict_set "device" (PStr d) event)
  = Ok (false, Some ("Invalid device: " ++ d)%string).
Proof.
  intros event d Hacc Hout. changed_field Hacc "device" (PStr d).
  rewrite Hetv. cbn [negb py_in_strs]. rewrite Hout. reflexivity.
Qed.

(** X7.  An accepted record whose [geo_location] is changed to a string
    without a [-] is rejected with ["Invalid geo_location format: s"]. *)
Theorem geo_location_without_dash : forall event s,
  EventSchema.validate event = Ok (true, None) ->
  str_contains "-" s = false ->
  EventSchema.validate (dict_set "geo_location" (PStr s) event)
  = Ok (false, Some ("Invalid geo_location format: " ++ s)%string).
Proof.
  intros event s Hacc Hout. changed_field Hacc "geo_location" (PStr s).
  rewrite Hetv, Hdvv. cbn [negb isinstance type_of orb]. rewrite Hout.
  reflexivity.
Qed.

(** X8.  An accepted record whose [timestamp] is changed to a string that the
    ISO-8601 parser refuses, once every [Z] is replaced by [+00:00], is
    rejected with ["Invalid timestamp format: s"], the message quoting the
    string as it was given. *)
Theorem timestamp_that_does_not_parse : forall event s,
  EventSchema.validate event = Ok (true, None) ->
  fromisoformat_ok (replace_Z s) = false ->
  EventSchema.validate (dict_set "timestamp" (PStr s) event)
  = Ok (false, Some ("Invalid timestamp format: " ++ s)%string).
Proof.
  intros event s Hacc Hout. changed_field Hacc "timestamp" (PStr s).
  rewrite Hetv, Hdvv. cbn [negb isinstance type_of orb]. rewrite Hgeov.
  cbn [negb EventSchema.timestamp_parses].
  destruct (dict_get "source" event) as [source|]; cbn [rbind];
    [rewrite Hsrc|]; rewrite Hout; reflexivity.
Qed.

Lemma timestamp_that_parses : forall event s,
  EventSchema.validate event = Ok (true, None) ->
  fromisoformat_ok (replace_Z s) = true ->
  EventSchema.validate (dict_set "timestamp" (PStr s) event)
  = Ok (true, None).
Proof.
  intros event s Hacc Hin. changed_field Hacc "timestamp" (PStr s).
  rewrite Hetv, Hdvv. cbn [negb isinstance type_of orb]. rewrite Hgeov.
  cbn [negb EventSchema.timestamp_parses].
  destruct (dict_get "source" event) as [source|]; cbn [rbind];
    [rewrite Hsrc|]; rewrite Hin, Hle; reflexivity.
Qed.

(** X10.  [source] is optional: an accepted record stays accepted when the key
    is deleted. *)
Theorem source_is_optional : forall event,
  EventSchema.validate event = Ok (true, None) ->
  EventSchema.validate (dict_remove "source" event) = Ok (true, None).
Proof.
  intros event Hacc.
  destruct (schema_accepted_facts _ Hacc)
    as (Hc & et & uid & ts & dv & geo & Het & Huid & Hts & Hdv & Hgeo &
        Hetv & Hdvv & Hgeov & Hsrc & Htsv & Hle).
  unfold EventSchema.validate.
  rewrite check_required_remove_other by reflexivity. rewrite Hc.
  unfold getitem, dict_has. rewrite !dict_get_remove_same.
  repeat rewrite dict_get_remove_other by reflexivity.
  rewrite Het, Hdv, Hgeo, Hts, Huid. cbn [rbind]. rewrite Hetv, Hdvv.
  cbn [negb isinstance type_of orb]. rewrite Hgeov.
  cbn [negb EventSchema.timestamp_parses]. rewrite Htsv, Hle. reflexivity.
Qed.

Lemma timestamps_parsed_alike : forall event s1 s2,
  replace_Z s1 = replace_Z s2 ->
  EventSchema.validate (dict_set "timestamp" (PStr s1) event)
  = Ok (true, None) ->
  EventSchema.validate (dict_set "timestamp" (PStr s2) event)
  = Ok (true, None).
Proof.
  intros event s1 s2 Heq Hacc.
  destruct (schema_accepted_facts _ Hacc)
    as (_ & et & uid & ts & dv & geo & _ & _ & Hts & _ & _ & _ & _ & _ & _ &
        Htsv & _).
  rewrite dict_get_set_same in Hts. injection Hts as <-.
  rewrite Heq in Htsv.
  rewrite <- (dict_set_twice "timestamp" (PStr s1) (PStr s2) event).
  now apply timestamp_that_parses.
Qed.

(** X11.  A timestamp written with the suffix [Z] is accepted exactly when the
    same timestamp written with the offset [+00:00] is. *)
Theorem suffix_z_is_the_utc_offset : forall event s,
  EventSchema.validate (dict_set "timestamp" (PStr (s ++ "Z")) event)
  = Ok (true, None)
  <->
  EventSchema.validate (dict_set "timestamp" (PStr (s ++ "+00:00")) event)
  = Ok (true, None).
Proof.
  intros event s.
  assert (Heq : replace_Z (s ++ "Z") = replace_Z (s ++ "+00:00"))
    by now rewrite !replace_Z_app.
  split; apply timestamps_parsed_alike; [exact Heq|now symmetry].
Qed.

Lemma event_id_is_free : forall event s,
  EventSchema.validate event = Ok (true, None) ->
  EventSchema.validate (dict_set "event_id" (PStr s) event) = Ok (true, None).
Proof.
  intros event s Hacc. changed_field Hacc "event_id" (PStr s).
  rewrite Hetv, Hdvv. cbn [negb isinstance type_of orb]. rewrite Hgeov.
  cbn [negb EventSchema.timestamp_parses].
  destruct (dict_get "source" event) as [source|]; cbn [rbind];
    [rewrite Hsrc|]; rewrite Htsv, Hle; reflexivity.
Qed.


Lemma dict_set_in : forall k v d, In (k, v) (dict_set k v d).
Proof.
  intros k v d. induction d as [|[k' v'] rest IH]; cbn [dict_set].
  - now left.
  - destruct (String.eqb k k') eqn:E.
    + apply String.eqb_eq in E. subst k'. now left.
    + now right.
Qed.


(** X14.  On an accepted record four of the six nullability checks cannot fail:
    [event_type] and [device] are members of their enumerations,
    [user_id] is an integer and [geo_location] holds a [-].  The errors
    are those of [event_id] and [timestamp] alone. *)
Theorem nullability_after_schema : forall event,
  EventSchema.validate event = Ok (true, None) ->
  null_errors event = null_errors_of ["event_id"; "timestamp"] event.
Proof.
  intros event Hacc.
  destruct (schema_accepted_facts _ Hacc)
    as (Hc & et & uid & ts & dv & geo & Het & Huid & Hts & Hdv & Hgeo &
        Hetv & Hdvv & Hgeov & Hsrc & Htsv & Hle).
  destruct (schema_accepts_positive_only _ Hacc) as (uid' & Huid' & Hint & _).
  rewrite Huid in Huid'. injection Huid' as <-.
  unfold null_errors, null_errors_of.
  cbn [flat_map NullabilityValidator.REQUIRED_NON_NULL].
  assert (Hn1 : null_error event "event_type" = None).
  { unfold null_error. rewrite Het. cbn [NullabilityValidator.null_or_empty].
    rewrite strip_empty_iff_all_space.
    now rewrite (listed_string_is_ink et EventSchema.VALID_EVENT_TYPES). }
  assert (Hn2 : null_error event "user_id" = None).
  { unfold null_error. rewrite Huid. now rewrite int_typed_not_null. }
  assert (Hn3 : null_error event "device" = None).
  { unfold null_error. rewrite Hdv. cbn [NullabilityValidator.null_or_empty].
    rewrite strip_empty_iff_all_space.
    now rewrite (listed_string_is_ink dv EventSchema.VALID_DEVICE_TYPES). }
  assert (Hn4 : null_error event "geo_location" = None).
  { unfold null_error. rewrite Hgeo. cbn [NullabilityValidator.null_or_empty].
    rewrite strip_empty_iff_all_space. now rewrite (dash_is_ink geo). }
  rewrite Hn1, Hn2, Hn3, Hn4. cbn [app]. now rewrite !app_nil_r.
Qed.

End SchemaFields.

(** ** Counters and metrics of the stateless validators *)

Lemma map_constant : forall (A B : Type) (b : B) (l : list A),
  map (fun _ => b) l = repeat b (length l).
Proof.
  intros A B b l. induction l as [|a l IH]; [reflexivity|].
  cbn [map length repeat]. now rewrite IH.
Qed.

Lemma Qle_bool_integers : forall a b : Z,
  Qle_bool (inject_Z a) (inject_Z b) = (a <=? b)%Z.
Proof.
  intros a b. unfold Qle_bool, inject_Z. cbn [Qnum Qden].
  now rewrite !Z.mul_1_r.
Qed.

Lemma null_metrics_of_count : forall self fields event,
  null_metrics_of self fields event
  = repeat (NullabilityValidator.name self, "null_value")
      (length (filter (fun field =>
                         match dict_get field event with
                         | Some v => NullabilityValidator.null_or_empty v
                         | None => false
                         end) fields)).
Proof.
  intros self fields event. induction fields as [|field rest IH];
    [reflexivity|].
  cbn [null_metrics_of flat_map filter].
  fold (null_metrics_of self rest event). rewrite IH.
  destruct (dict_get field event) as [v|]; [|reflexivity].
  destruct (NullabilityValidator.null_or_empty v); reflexivity.
Qed.

Section ValidatorCounters.
Context `{PyRuntime}.


Lemma range_of_single_integer : forall field c lo hi n self w,
  dict_get field RangeValidator.RANGE_CONSTRAINTS = Some c ->
  num_of (RangeValidator.vmin c) = Some lo ->
  num_of (RangeValidator.vmax c) = Some hi ->
  String.eqb "properties" field = false ->
  exists r self' w',
    RangeValidator.validate [(field, PInt n)] self w = (Ok r, self', w')
    /\ is_valid r
       = Qle_bool lo (inject_Z n) && Qle_bool (inject_Z n) hi.
Proof.
  intros field c lo hi n self w Hc Hlo Hhi Hp. do 3 eexists.
  split; [apply range_validate_run|]. cbn [is_valid].
  unfold range_warnings, properties_of. cbn [dict_get]. rewrite Hp.
  cbn [filter map app]. unfold out_of_range. cbn [fst snd num_of].
  rewrite Hc, Hlo, Hhi.
  destruct (Qle_bool lo (inject_Z n) && Qle_bool (inject_Z n) hi);
    reflexivity.
Qed.



End ValidatorCounters.

(** ** More on the anomaly detector *)

Lemma total_repeat : forall (c : Q) n,
  (statistics.total (repeat c n) == inject_Z (Z.of_nat n) * c)%Q.
Proof.
  intros c n. induction n as [|n IH].
  - cbn. ring.
  - cbn [repeat statistics.total fold_right].
    fold (statistics.total (repeat c n)). rewrite IH.
    rewrite Nat2Z.inj_succ. unfold Z.succ. rewrite inject_Z_plus. ring.
Qed.

Lemma mean_repeat : forall (a : Q) n,
  (0 < n)%nat -> (statistics.mean_of (repeat a n) == a)%Q.
Proof.
  intros a n Hn. unfold statistics.mean_of, statistics.count.
  rewrite total_repeat, repeat_length. field.
  intros Hz. assert (Hk : (0 < inject_Z (Z.of_nat n))%Q).
  { rewrite <- (Zlt_Qlt 0). lia. }
  rewrite Hz in Hk. now apply Qlt_irrefl in Hk.
Qed.

(** Equal samples have no variance. *)
Lemma variance_repeat : forall (a : Q) n,
  (0 < n)%nat -> (statistics.variance_of (repeat a n) == 0)%Q.
Proof.
  intros a n Hn. unfold statistics.variance_of.
  rewrite map_repeat, total_repeat.
  rewrite (mean_repeat a n Hn).
  unfold Qdiv. ring.
Qed.

Lemma deque_append_constant : forall d (a : Q) k,
  AnomalyDetector.items d = repeat a k ->
  exists k', AnomalyDetector.items (AnomalyDetector.deque_append d a)
             = repeat a k'.
Proof.
  intros [m xs] a k Hxs. cbn [AnomalyDetector.items] in Hxs. subst xs.
  unfold AnomalyDetector.deque_append.
  cbn [AnomalyDetector.items AnomalyDetector.maxlen].
  rewrite <- repeat_cons.
  destruct (m <? length (a :: repeat a k))%nat.
  - exists k. reflexivity.
  - exists (S k). reflexivity.
Qed.

Section DetectorBehaviour.
Context `{PyRuntime}.

Import AnomalyDetector.


Lemma detect_all_insufficient : forall field values self w,
  (maxlen (value_history self) < 10)%nat ->
  (length (items (value_history self)) <= maxlen (value_history self))%nat ->
  exists rs self' w',
    detect_all field values self w = (Ok rs, self', w')
    /\ length rs = length values
    /\ forallb insufficient rs = true
    /\ failure_count self' = failure_count self
    /\ validation_failures_total w' = validation_failures_total w.
Proof.
  intros field values. induction values as [|value rest IH];
    intros self w Hcap Hlen.
  - do 3 eexists. split; [reflexivity|]. repeat split.
  - assert (Hshort :
      (length (items (deque_append (value_history self) value)) < 10)%nat).
    { pose proof (deque_append_bounded _ value Hlen) as Hb.
      cbn [deque_append maxlen] in Hb. cbn [maxlen deque_append] in *. lia. }
    destruct (IH (appended self value)
                 (note_entry "AnomalyDetector.detect" w))
      as (rs & self' & w' & Hrun & Hrs & Hall & Hcount & Hmetrics).
    + exact Hcap.
    + apply (deque_append_bounded _ value Hlen).
    + do 3 eexists. cbn [detect_all]. unfold bind at 1.
      rewrite (detect_insufficient _ _ _ _ Hshort).
      unfold bind at 1. rewrite Hrun. split; [reflexivity|].
      cbn [length forallb insufficient is_valid warnings String.eqb].
      rewrite Hrs, Hall. repeat split; auto.
Qed.

(** X19.  A detector built with a window of fewer than ten samples never gives a
    verdict: whatever it is fed, every result is valid with the warning
    ["Insufficient samples for anomaly detection"], and nothing is
    counted or recorded. *)
Theorem short_window_never_flags : forall capacity threshold field values w,
  (capacity < 10)%nat ->
  exists rs self' w',
    detect_all field values (init capacity threshold) w = (Ok rs, self', w')
    /\ length rs = length values
    /\ forallb insufficient rs = true
    /\ failure_count self' = 0%nat
    /\ validation_failures_total w' = validation_failures_total w.
Proof.
  intros capacity threshold field values w Hcap.
  apply detect_all_insufficient; cbn; lia.
Qed.

Lemma detect_constant : forall field (a : Q) k self w,
  items (value_history self) = repeat a k ->
  exists r,
    detect field a self w
    = (Ok r, appended self a, note_entry "AnomalyDetector.detect" w)
    /\ is_valid r = true.
Proof.
  intros field a k self w Hitems.
  destruct (deque_append_constant _ a k Hitems) as [k' Hk'].
  destruct (Nat.lt_ge_cases
              (length (items (deque_append (value_history self) a))) 10)
    as [Hlt|Hge].
  - rewrite (detect_insufficient _ _ _ _ Hlt). eauto.
  - rewrite (detect_sufficient _ _ _ _ Hge). cbv zeta.
    rewrite Hk' in *. rewrite repeat_length in Hge.
    assert (Hzero : sqrt (Q2R (statistics.variance_of (repeat a k'))) = 0%R).
    { rewrite (Qeq_eqR _ _ (variance_repeat a k' ltac:(lia))).
      rewrite RMicromega.Q2R_0. apply sqrt_0. }
    destruct (Req_dec_T _ _) as [_|Hnz]; [eauto|contradiction].
Qed.

Lemma detect_all_constant : forall field (a : Q) n k self w,
  items (value_history self) = repeat a k ->
  exists rs self' w',
    detect_all field (repeat a n) self w = (Ok rs, self', w')
    /\ length rs = n
    /\ forallb is_valid rs = true
    /\ failure_count self' = failure_count self
    /\ validation_failures_total w' = validation_failures_total w.
Proof.
  intros field a n. induction n as [|n IH]; intros k self w Hitems.
  - do 3 eexists. split; [reflexivity|]. repeat split.
  - destruct (detect_constant field a k self w Hitems) as (r & Hd & Hv).
    destruct (deque_append_constant _ a k Hitems) as [k' Hk'].
    destruct (IH k' (appended self a)
                 (note_entry "AnomalyDetector.detect" w) Hk')
      as (rs & self' & w' & Hrun & Hrs & Hall & Hcount & Hmetrics).
    do 3 eexists. cbn [repeat detect_all]. unfold bind at 1. rewrite Hd.
    unfold bind at 1. rewrite Hrun. split; [reflexivity|].
    cbn [length forallb]. rewrite Hrs, Hv, Hall. repeat split; auto.
Qed.


End DetectorBehaviour.

(** ** The orchestrator over a stream of events *)

Lemma feed_app : forall xs ys d,
  AnomalyDetector.feed d (xs ++ ys)
  = AnomalyDetector.feed (AnomalyDetector.feed d xs) ys.
Proof. intros xs ys d. unfold AnomalyDetector.feed. apply fold_left_app. Qed.

Section OrchestratorStreams.
Context `{PyRuntime}.

(** What one [detect] call does to the detector and to the metrics. *)
Lemma detect_effect : forall field value self w,
  exists r self' w' flagged,
    AnomalyDetector.detect field value self w = (Ok r, self', w')
    /\ AnomalyDetector.value_history self'
       = AnomalyDetector.deque_append (AnomalyDetector.value_history self)
           value
    /\ AnomalyDetector.name self' = AnomalyDetector.name self
    /\ AnomalyDetector.std_threshold self'
       = AnomalyDetector.std_threshold self
    /\ AnomalyDetector.window_size self' = AnomalyDetector.window_size self
    /\ AnomalyDetector.failure_count self'
       = AnomalyDetector.failure_count self + length flagged
    /\ validation_failures_total w' = validation_failures_total w ++ flagged
    /\ invocations w' = invocations w ++ ["AnomalyDetector.detect"].
Proof.
  intros field value self w.
  destruct (Nat.lt_ge_cases
              (length (AnomalyDetector.items
                         (AnomalyDetector.deque_append
                            (AnomalyDetector.value_history self) value))) 10)
    as [Hlt|Hge].
  - rewrite (detect_insufficient _ _ _ _ Hlt). do 3 eexists. exists [].
    split; [reflexivity|]. cbn. rewrite app_nil_r. repeat split; lia.
  - rewrite (detect_sufficient _ _ _ _ Hge). cbv zeta.
    destruct (Req_dec_T _ _); [|destruct (Rlt_dec _ _)].
    + do 3 eexists. exists []. split; [reflexivity|]. cbn.
      rewrite app_nil_r. repeat split; lia.
    + do 3 eexists. exists [(AnomalyDetector.name self, "anomaly_detected")].
      split; [reflexivity|]. cbn. repeat split.
    + do 3 eexists. exists []. split; [reflexivity|]. cbn.
      rewrite app_nil_r. repeat split; lia.
Qed.

Lemma accepted_true : forall event,
  accepted event = true -> EventSchema.validate event = Ok (true, None).
Proof.
  intros event. unfold accepted.
  destruct (EventSchema.validate event) as [[[] msg]|] eqn:Hv;
    try discriminate.
  intros _. now rewrite (schema_accept_message _ _ Hv).
Qed.

Lemma accepted_false : forall event,
  accepted event = false ->
  exists msg, EventSchema.validate event = Ok (false, msg).
Proof.
  intros event. unfold accepted.
  destruct (schema_validate_never_raises event) as (b & msg & Hv).
  rewrite Hv. destruct b; [discriminate|eauto].
Qed.

(** One [validate] call, in full: the verdict, every attribute of the
    orchestrator afterwards, the metrics and the trace of calls. *)
Lemma validate_effect : forall event self w,
  exists overall results self' w' metrics,
    DataValidator.validate event self w = (Ok (overall, results), self', w')
    /\ length results
       = (if accepted event then 3 + length (fed_prices [event]) else 1)%nat
    /\ AnomalyDetector.value_history (DataValidator.anomaly_detector self')
       = AnomalyDetector.feed
           (AnomalyDetector.value_history (DataValidator.anomaly_detector self))
           (fed_prices [event])
    /\ SchemaValidator.failure_count (DataValidator.schema_validator self')
       = (SchemaValidator.failure_count (DataValidator.schema_validator self)
          + (if accepted event then 0 else 1))%nat
    /\ (RangeValidator.failure_count (DataValidator.range_validator self)
        <= RangeValidator.failure_count (DataValidator.range_validator self'))%nat
    /\ (NullabilityValidator.failure_count
          (DataValidator.nullability_validator self)
        <= NullabilityValidator.failure_count
             (DataValidator.nullability_validator self'))%nat
    /\ (AnomalyDetector.failure_count (DataValidator.anomaly_detector self)
        <= AnomalyDetector.failure_count
             (DataValidator.anomaly_detector self'))%nat
    /\ SchemaValidator.name (DataValidator.schema_validator self')
       = SchemaValidator.name (DataValidator.schema_validator self)
    /\ RangeValidator.name (DataValidator.range_validator self')
       = RangeValidator.name (DataValidator.range_validator self)
    /\ NullabilityValidator.name (DataValidator.nullability_validator self')
       = NullabilityValidator.name (DataValidator.nullability_validator self)
    /\ AnomalyDetector.name (DataValidator.anomaly_detector self')
       = AnomalyDetector.name (DataValidator.anomaly_detector self)
    /\ AnomalyDetector.std_threshold (DataValidator.anomaly_detector self')
       = AnomalyDetector.std_threshold (DataValidator.anomaly_detector self)
    /\ AnomalyDetector.window_size (DataValidator.anomaly_detector self')
       = AnomalyDetector.window_size (DataValidator.anomaly_detector self)
    /\ validation_failures_total w' = validation_failures_total w ++ metrics
    /\ invocations w'
       = invocations w
         ++ "SchemaValidator.validate"
            :: (if accepted event
                then ["RangeValidator.validate";
                      "NullabilityValidator.validate"]
                     ++ map (fun _ => "AnomalyDetector.detect")
                          (fed_prices [event])
                else []).
Proof.
  intros event self w. destruct (accepted event) eqn:Hacc.
  - pose proof (accepted_true _ Hacc) as Hv.
    destruct (schema_accepted_properties _ Hv) as [props Hprops].
    unfold fed_prices. cbn [flat_map]. rewrite Hacc, app_nil_r.
    unfold DataValidator.validate.
    unfold bind at 1, on_attr at 1.
    rewrite (schema_validator_run _ _ _ _ Hv).
    cbn [fst snd negb is_valid schema_result].
    unfold bind at 1, on_attr at 1. rewrite range_validate_run.
    unfold bind at 1, on_attr at 1. rewrite null_validate_run.
    unfold bind at 1. rewrite (check_price_run _ _ _ _ _ Hprops).
    destruct (price_of event) as [value|].
    + match goal with
      | |- context [AnomalyDetector.detect "price" value ?d ?w0] =>
          destruct (detect_effect "price" value d w0)
            as (r & d' & w1 & flagged & Hd & Hh & Hn & Ht & Hs & Hc & Hm & Hi);
          rewrite Hd
      end.
      do 4 eexists.
      exists (map (range_metric (DataValidator.range_validator self))
                (filter out_of_range event)
              ++ null_metrics_of (DataValidator.nullability_validator self)
                   NullabilityValidator.REQUIRED_NON_NULL event
              ++ flagged).
      split; [reflexivity|].
      cbn [DataValidator.anomaly_detector DataValidator.schema_validator
           DataValidator.range_validator DataValidator.nullability_validator
           DataValidator.set_nullability_validator
           DataValidator.set_range_validator
           DataValidator.set_schema_validator
           DataValidator.set_anomaly_detector
           DataValidator.set_validation_results
           RangeValidator.failure_count RangeValidator.name
           NullabilityValidator.failure_count NullabilityValidator.name
           validation_failures_total invocations add_failures note_entry
           length app map AnomalyDetector.feed fold_left] in *.
      rewrite Hh, Hn, Ht, Hs, Hc, Hm, Hi, <- !app_assoc.
      repeat split; try reflexivity; lia.
    + do 4 eexists.
      exists (map (range_metric (DataValidator.range_validator self))
                (filter out_of_range event)
              ++ null_metrics_of (DataValidator.nullability_validator self)
                   NullabilityValidator.REQUIRED_NON_NULL event).
      split; [reflexivity|].
      cbn [DataValidator.anomaly_detector DataValidator.schema_validator
           DataValidator.range_validator DataValidator.nullability_validator
           DataValidator.set_nullability_validator
           DataValidator.set_range_validator
           DataValidator.set_schema_validator
           DataValidator.set_anomaly_detector
           DataValidator.set_validation_results
           RangeValidator.failure_count RangeValidator.name
           NullabilityValidator.failure_count NullabilityValidator.name
           validation_failures_total invocations add_failures note_entry
           length app map AnomalyDetector.feed fold_left].
      rewrite <- !app_assoc.
      repeat split; try reflexivity; lia.
  - destruct (accepted_false _ Hacc) as [msg Hv].
    unfold fed_prices. cbn [flat_map]. rewrite Hacc.
    rewrite (validate_rejected_run _ _ _ _ Hv).
    do 4 eexists.
    exists [(SchemaValidator.name (DataValidator.schema_validator self),
             "schema_violation")].
    split; [reflexivity|]. cbn. repeat split; lia.
Qed.


Lemma validate_all_effect : forall events self w,
  exists verdicts self' w',
    validate_all events self w = (Ok verdicts, self', w')
    /\ length verdicts = length events
    /\ AnomalyDetector.value_history (DataValidator.anomaly_detector self')
       = AnomalyDetector.feed
           (AnomalyDetector.value_history (DataValidator.anomaly_detector self))
           (fed_prices events)
    /\ SchemaValidator.failure_count (DataValidator.schema_validator self')
       = (SchemaValidator.failure_count (DataValidator.schema_validator self)
          + length (filter (fun event => negb (accepted event)) events))%nat.
Proof.
  induction events as [|event rest IH]; intros self w.
  - do 3 eexists. split; [reflexivity|]. cbn. repeat split. lia.
  - destruct (validate_effect event self w)
      as (overall & results & self1 & w1 & metrics & Hrun & _ & Hwin & Hsc & _).
    destruct (IH self1 w1) as (verdicts & self' & w' & Hall & Hlen & Hw & Hc).
    do 3 eexists. cbn [validate_all]. unfold bind at 1. rewrite Hrun.
    unfold bind at 1. rewrite Hall. split; [reflexivity|].
    cbn [length]. rewrite Hlen, Hw, Hwin, Hc, Hsc.
    assert (Hsplit : fed_prices (event :: rest)
                     = fed_prices [event] ++ fed_prices rest)
      by (unfold fed_prices; cbn [flat_map]; now rewrite app_nil_r).
    rewrite Hsplit, feed_app. cbn [filter].
    destruct (accepted event); cbn [negb length]; repeat split; lia.
Qed.



(** The detector is not consulted without a numeric price: on an accepted
    record whose [properties] has no [price], or one that is neither an
    int nor a float, the orchestrator returns three results and leaves the
    detector's window as it was. *)
Theorem no_numeric_price_no_detection : forall event self w,
  EventSchema.validate event = Ok (true, None) ->
  price_of event = None ->
  exists overall results self' w',
    DataValidator.validate event self w = (Ok (overall, results), self', w')
    /\ length results = 3%nat
    /\ AnomalyDetector.value_history (DataValidator.anomaly_detector self')
       = AnomalyDetector.value_history (DataValidator.anomaly_detector self)
    /\ invocations w'
       = invocations w
         ++ ["SchemaValidator.validate"; "RangeValidator.validate";
             "NullabilityValidator.validate"].
Proof.
  intros event self w Hv Hprice.
  assert (Hacc : accepted event = true) by (unfold accepted; now rewrite Hv).
  destruct (validate_effect event self w)
    as (overall & results & self' & w' & metrics & Hrun & Hlen & Hwin & _ &
        _ & _ & _ & _ & _ & _ & _ & _ & _ & _ & Hinv).
  unfold fed_prices in *. cbn [flat_map] in *.
  rewrite Hacc, Hprice in *. cbn in Hlen, Hwin, Hinv.
  exists overall, results, self', w'. auto.
Qed.

End OrchestratorStreams.

(** ** The [Event] dataclass *)

Lemma keyword_ok : forall data name v,
  Event.keyword data name = Ok v -> dict_get name data = Some v.
Proof.
  intros data name v. unfold Event.keyword.
  destruct (dict_get name data); [now intros [= <-]|discriminate].
Qed.

Lemma dict_get_in_keys : forall (k : string) (d : dict) v,
  dict_get k d = Some v -> In k (map fst d).
Proof.
  intros k d v. induction d as [|[k' v'] rest IH]; [discriminate|].
  cbn [dict_get map fst]. destruct (String.eqb k k') eqn:E.
  - apply String.eqb_eq in E. intros _. now left.
  - intros Hget. right. now apply IH.
Qed.

Section EventRecords.
Context `{PyRuntime}.

(** What a successful [from_dict] says about its argument. *)
Lemma from_dict_ok : forall data e,
  Event.from_dict data = Ok e ->
  forallb (fun entry => existsb (String.eqb (fst entry)) Event.FIELDS) data
  = true
  /\ dict_get "event_id" data = Some (Event.event_id e)
  /\ dict_get "event_type" data = Some (Event.event_type e)
  /\ dict_get "user_id" data = Some (Event.user_id e)
  /\ dict_get "timestamp" data = Some (Event.timestamp e)
  /\ dict_get "session_id" data = Some (Event.session_id e)
  /\ dict_get "properties" data = Some (Event.properties e)
  /\ dict_get "device" data = Some (Event.device e)
  /\ dict_get "geo_location" data = Some (Event.geo_location e)
  /\ Event.source e = Event.keyword_or data "source" (PStr "direct")
  /\ Event.version e = Event.keyword_or data "version" (PStr "1.0").
Proof.
  intros data e. unfold Event.from_dict.
  destruct (forallb _ data); cbn [negb]; [|discriminate].
  destruct (Event.keyword data "event_id") as [v1|] eqn:H1; [|discriminate].
  destruct (Event.keyword data "event_type") as [v2|] eqn:H2; [|discriminate].
  destruct (Event.keyword data "user_id") as [v3|] eqn:H3; [|discriminate].
  destruct (Event.keyword data "timestamp") as [v4|] eqn:H4; [|discriminate].
  destruct (Event.keyword data "session_id") as [v5|] eqn:H5; [|discriminate].
  destruct (Event.keyword data "properties") as [v6|] eqn:H6; [|discriminate].
  destruct (Event.keyword data "device") as [v7|] eqn:H7; [|discriminate].
  destruct (Event.keyword data "geo_location") as [v8|] eqn:H8;
    [|discriminate].
  cbn [rbind]. intros [= <-]. cbn.
  repeat split; auto using keyword_ok.
Qed.

(** X24.  The two conversions are inverse to each other as far as they can be.
    [from_dict] gives back the event [to_dict] was applied to.  And when
    [from_dict] accepts a dictionary, [to_dict] of the event has the ten
    fields as its keys, in field order, holds every entry of the
    dictionary, and holds the defaults ["direct"] and ["1.0"] for a
    [source] and a [version] the dictionary lacks. *)
Theorem event_dict_round_trip :
  (forall e, Event.from_dict (Event.to_dict e) = Ok e)
  /\ (forall data e,
        Event.from_dict data = Ok e ->
        map fst (Event.to_dict e) = Event.FIELDS
        /\ (forall k v,
              dict_get k data = Some v ->
              dict_get k (Event.to_dict e) = Some v)
        /\ (dict_get "source" data = None ->
            dict_get "source" (Event.to_dict e) = Some (PStr "direct"))
        /\ (dict_get "version" data = None ->
            dict_get "version" (Event.to_dict e) = Some (PStr "1.0"))).
Proof.
  split.
  - intros [a b c d e f g h i j]. reflexivity.
  - intros data e Hok.
    destruct (from_dict_ok _ _ Hok)
      as (Hkeys & H1 & H2 & H3 & H4 & H5 & H6 & H7 & H8 & Hs & Hv).
    split; [reflexivity|]. split; [|split].
    + intros k v Hget.
      pose proof (dict_get_in_keys _ _ _ Hget) as Hin.
      rewrite forallb_forall in Hkeys.
      apply in_map_iff in Hin as ([k' v'] & Hk & Hin). cbn [fst] in Hk.
      subst k'. apply Hkeys in Hin. cbn [fst Event.FIELDS existsb] in Hin.
      unfold Event.keyword_or in Hs, Hv.
      repeat (apply orb_true_iff in Hin as [Hin|Hin];
              [apply String.eqb_eq in Hin; subst k; cbn;
               first [ rewrite Hs, Hget | rewrite Hv, Hget | congruence ];
               reflexivity|]).
      discriminate.
    + intros Hnone. cbn. unfold Event.keyword_or in Hs.
      now rewrite Hs, Hnone.
    + intros Hnone. cbn. unfold Event.keyword_or in Hv.
      now rewrite Hv, Hnone.
Qed.

(** X25.  [from_dict] raises exactly on a dictionary with a key that is no
    field or without one of the eight fields that have no default, and
    the exception is [TypeError]; on every other dictionary it returns an
    event. *)
Theorem from_dict_raises_on_wrong_keys : forall data,
  ((exists e, Event.from_dict data = Ok e)
   /\ (forall k, In k (map fst data) -> In k Event.FIELDS)
   /\ (forall k, In k (map fst EventSchema.REQUIRED_FIELDS) ->
                 exists v, dict_get k data = Some v))
  \/ (Event.from_dict data = Raise TypeError
      /\ ((exists k, In k (map fst data) /\ ~ In k Event.FIELDS)
          \/ exists k, In k (map fst EventSchema.REQUIRED_FIELDS)
                       /\ dict_get k data = None)).
Proof.
  intros data. unfold Event.from_dict.
  destruct (forallb _ data) eqn:Hkeys; cbn [negb].
  - unfold Event.keyword.
    destruct (dict_get "event_id" data) eqn:H1;
      [|right; split; [reflexivity|right; exists "event_id"; cbn; tauto]].
    destruct (dict_get "event_type" data) eqn:H2;
      [|right; split; [reflexivity|right; exists "event_type"; cbn; tauto]].
    destruct (dict_get "user_id" data) eqn:H3;
      [|right; split; [reflexivity|right; exists "user_id"; cbn; tauto]].
    destruct (dict_get "timestamp" data) eqn:H4;
      [|right; split; [reflexivity|right; exists "timestamp"; cbn; tauto]].
    destruct (dict_get "session_id" data) eqn:H5;
      [|right; split; [reflexivity|right; exists "session_id"; cbn; tauto]].
    destruct (dict_get "properties" data) eqn:H6;
      [|right; split; [reflexivity|right; exists "properties"; cbn; tauto]].
    destruct (dict_get "device" data) eqn:H7;
      [|right; split; [reflexivity|right; exists "device"; cbn; tauto]].
    destruct (dict_get "geo_location" data) eqn:H8;
      [|right; split; [reflexivity|right; exists "geo_location"; cbn; tauto]].
    left. split; [eexists; reflexivity|]. split.
    + intros k Hin. rewrite forallb_forall in Hkeys.
      apply in_map_iff in Hin as ([k' v'] & Hk & Hin). cbn [fst] in Hk.
      subst k'. apply Hkeys in Hin. cbn [fst] in Hin.
      apply existsb_exists in Hin as (f & Hf & Heq).
      apply String.eqb_eq in Heq. now subst f.
    + intros k Hin. cbn in Hin.
      repeat (destruct Hin as [<-|Hin]; [eauto|]). contradiction.
  - right. split; [reflexivity|]. left.
    assert (Hex : existsb (fun entry =>
                             negb (existsb (String.eqb (fst entry))
                                     Event.FIELDS)) data = true).
    { clear -Hkeys. induction data as [|entry rest IH]; [discriminate|].
      cbn [forallb existsb] in *.
      destruct (existsb (String.eqb (fst entry)) Event.FIELDS);
        cbn [andb negb orb] in *; auto. }
    apply existsb_exists in Hex as ([k v] & Hin & Hk). cbn [fst] in Hk.
    exists k. split; [apply in_map_iff; exists (k, v); auto|].
    intros Hfield. apply negb_true_iff in Hk.
    assert (Hyes : existsb (String.eqb k) Event.FIELDS = true)
      by (apply existsb_exists; exists k; split;
          [exact Hfield|apply String.eqb_refl]).
    congruence.
Qed.

(** X26.  Passing a dictionary through [Event] does not change what the schema
    check says about it: when [from_dict] accepts a dictionary, the
    verdict on [to_dict] of the event is the verdict on the dictionary.
    The default [source] is one the check allows, and the check does not
    read [version]. *)
Theorem event_keeps_schema_verdict : forall data e,
  Event.from_dict data = Ok e ->
  EventSchema.validate (Event.to_dict e) = EventSchema.validate data.
Proof.
  intros data e Hok.
  destruct (from_dict_ok _ _ Hok)
    as (_ & H1 & H2 & H3 & H4 & H5 & H6 & H7 & H8 & Hs & _).
  unfold EventSchema.validate.
  cbn [EventSchema.check_required EventSchema.REQUIRED_FIELDS].
  unfold getitem, dict_has.
  rewrite H1, H2, H3, H4, H5, H6, H7, H8.
  cbn [Event.to_dict dict_get String.eqb Ascii.eqb Bool.eqb].
  unfold Event.keyword_or in Hs. rewrite Hs.
  destruct (dict_get "source" data) as [source|]; reflexivity.
Qed.

End EventRecords.

(** ** The producers *)

Section Producers.
Context `{PyRuntime} `{KafkaEventProducer.KafkaRuntime}.

Import KafkaEventProducer.

(** The gate lets an event through or turns it away; it does not raise. *)
Lemma turned_away_total : forall self event,
  exists b, turned_away self event = Ok b.
Proof.
  intros self event. unfold turned_away.
  destruct (validate_schema self); [|eauto].
  destruct (schema_validate_never_raises (Event.to_dict event))
    as (b & msg & Hv).
  rewrite Hv. cbn [rbind fst]. eauto.
Qed.

(** One [send_event] call, in full. *)
Lemma send_event_effect : forall event self processed,
  exists b self' processed',
    send_event event self processed = (Ok b, self', processed')
    /\ topic self' = topic self
    /\ validate_schema self' = validate_schema self
    /\ ProducerMetrics.total_time_ms (metrics self')
       = ProducerMetrics.total_time_ms (metrics self)
    /\ match turned_away self event with
       | Ok true =>
           b = false
           /\ producer self' = producer self
           /\ processed' = processed
           /\ ProducerMetrics.schema_validation_failures (metrics self')
              = (ProducerMetrics.schema_validation_failures (metrics self)
                 + 1)%nat
           /\ ProducerMetrics.events_sent (metrics self')
              = ProducerMetrics.events_sent (metrics self)
           /\ ProducerMetrics.events_failed (metrics self')
              = ProducerMetrics.events_failed (metrics self)
           /\ ProducerMetrics.total_bytes_sent (metrics self')
              = ProducerMetrics.total_bytes_sent (metrics self)
       | _ =>
           producer self' = producer self ++ [send_of self event]
           /\ ProducerMetrics.schema_validation_failures (metrics self')
              = ProducerMetrics.schema_validation_failures (metrics self)
           /\ ProducerMetrics.events_sent (metrics self')
              = (ProducerMetrics.events_sent (metrics self)
                 + (if b then 1 else 0))%nat
           /\ (ProducerMetrics.events_failed (metrics self)
               + (if b then 0 else 1)
               <= ProducerMetrics.events_failed (metrics self'))%nat
       end.
Proof.
  intros event self processed. unfold send_event.
  destruct (turned_away_total self event) as [[] Ht]; rewrite Ht.
  - do 3 eexists. split; [reflexivity|]. cbn. repeat split.
  - cbv zeta. destruct (kafka _); do 3 eexists; (split; [reflexivity|]);
      cbn; repeat split; lia.
Qed.

Lemma turned_away_flag : forall a b event,
  validate_schema a = validate_schema b ->
  turned_away a event = turned_away b event.
Proof. intros a b event Hf. unfold turned_away. now rewrite Hf. Qed.

Lemma let_through_flag : forall a b,
  validate_schema a = validate_schema b ->
  forall events, filter (let_through a) events = filter (let_through b) events.
Proof.
  intros a b Hf events. apply filter_ext. intros event.
  unfold let_through. now rewrite (turned_away_flag a b event Hf).
Qed.

Lemma send_of_topic : forall a b,
  topic a = topic b ->
  forall events, map (send_of a) events = map (send_of b) events.
Proof.
  intros a b Ht events. apply map_ext. intros event.
  unfold send_of. now rewrite Ht.
Qed.

(** The loop of [send_batch], in full. *)
Lemma send_each_effect : forall events successful self processed,
  exists count self' processed',
    send_each events successful self processed = (Ok count, self', processed')
    /\ topic self' = topic self
    /\ validate_schema self' = validate_schema self
    /\ ProducerMetrics.total_time_ms (metrics self')
       = ProducerMetrics.total_time_ms (metrics self)
    /\ producer self'
       = producer self
         ++ map (send_of self) (filter (let_through self) events)
    /\ (ProducerMetrics.events_sent (metrics self') + successful
        = ProducerMetrics.events_sent (metrics self) + count)%nat
    /\ (ProducerMetrics.schema_validation_failures (metrics self')
        + length (filter (let_through self) events)
        = ProducerMetrics.schema_validation_failures (metrics self)
          + length events)%nat
    /\ (successful <= count)%nat
    /\ (count <= successful + length (filter (let_through self) events))%nat
    /\ (ProducerMetrics.events_failed (metrics self)
        + successful + length (filter (let_through self) events)
        <= ProducerMetrics.events_failed (metrics self') + count)%nat.
Proof.
  induction events as [|event rest IH]; intros successful self processed.
  - do 3 eexists. split; [reflexivity|]. cbn. rewrite app_nil_r.
    repeat split; lia.
  - destruct (send_event_effect event self processed)
      as (b & self1 & processed1 & Hrun & Ht & Hf & Hms & Heff).
    cbn [send_each]. rewrite Hrun. cbn [filter].
    destruct (turned_away_total self event) as [away Haway].
    assert (Hlt : let_through self event = negb away)
      by (unfold let_through; rewrite Haway; now destruct away).
    rewrite Hlt. rewrite Haway in Heff.
    destruct away; cbn [negb].
    + destruct Heff as (-> & Hp & _ & Hsf & Hes & Hef & _).
      destruct (IH successful self1 processed1)
        as (count & self' & processed' & Hall & Ht' & Hf' & Hms' & Hp' &
            Hes' & Hsf' & Hlo & Hhi & Hef').
      rewrite Hall. do 3 eexists. split; [reflexivity|].
      rewrite (let_through_flag self1 self Hf) in *.
      rewrite (send_of_topic self1 self Ht) in *.
      cbn [length]. repeat split; try congruence; try lia.
    + destruct Heff as (Hp & Hsf & Hes & Hef).
      destruct b.
      * destruct (IH (successful + 1)%nat self1 processed1)
          as (count & self' & processed' & Hall & Ht' & Hf' & Hms' & Hp' &
              Hes' & Hsf' & Hlo & Hhi & Hef').
        rewrite Hall. do 3 eexists. split; [reflexivity|].
        rewrite (let_through_flag self1 self Hf) in *.
        rewrite (send_of_topic self1 self Ht) in *.
        cbn [map length]. rewrite Hp', Hp, <- app_assoc.
        repeat split; try congruence; try lia.
      * destruct (IH successful self1 processed1)
          as (count & self' & processed' & Hall & Ht' & Hf' & Hms' & Hp' &
              Hes' & Hsf' & Hlo & Hhi & Hef').
        rewrite Hall. do 3 eexists. split; [reflexivity|].
        rewrite (let_through_flag self1 self Hf) in *.
        rewrite (send_of_topic self1 self Ht) in *.
        cbn [map length]. rewrite Hp', Hp, <- app_assoc.
        repeat split; try congruence; try lia.
Qed.

(** [send_batch], in full. *)
Lemma send_batch_effect : forall events self processed,
  exists count self' processed',
    send_batch events self processed = (Ok count, self', processed')
    /\ topic self' = topic self
    /\ validate_schema self' = validate_schema self
    /\ ProducerMetrics.total_time_ms (metrics self')
       = ProducerMetrics.total_time_ms (metrics self)
    /\ producer self'
       = producer self
         ++ map (send_of self) (filter (let_through self) events)
         ++ [Flush]
    /\ ProducerMetrics.events_sent (metrics self')
       = (ProducerMetrics.events_sent (metrics self) + count)%nat
    /\ ProducerMetrics.schema_validation_failures (metrics self')
       = (ProducerMetrics.schema_validation_failures (metrics self)
          + length (filter (fun event => negb (let_through self event))
                      events))%nat
    /\ (count <= length (filter (let_through self) events))%nat
    /\ (ProducerMetrics.events_failed (metrics self)
        + (length (filter (let_through self) events) - count)
        <= ProducerMetrics.events_failed (metrics self'))%nat.
Proof.
  intros events self processed. unfold send_batch.
  destruct (send_each_effect events 0 self processed)
    as (count & self' & processed' & Hall & Ht & Hf & Hms & Hp & Hes & Hsf &
        _ & Hhi & Hef).
  rewrite Hall. do 3 eexists. split; [reflexivity|].
  pose proof (filter_length (let_through self) events) as Hsplit.
  cbn [topic validate_schema metrics producer with_producer].
  rewrite Hp, <- app_assoc. repeat split; try assumption; lia.
Qed.




Lemma sends_of_sends : forall self events,
  filter is_send (map (send_of self) events) = map (send_of self) events.
Proof.
  intros self events. apply forallb_filter_id. apply forallb_forall.
  intros c Hin. apply in_map_iff in Hin as (event & <- & _). reflexivity.
Qed.

(** [BatchProducer.flush], in full. *)
Lemma flush_effect : forall self processed,
  exists count self' processed',
    BatchProducer.flush self processed = (Ok count, self', processed')
    /\ BatchProducer.buffer self' = []
    /\ BatchProducer.batch_size self' = BatchProducer.batch_size self
    /\ topic (BatchProducer.producer self')
       = topic (BatchProducer.producer self)
    /\ validate_schema (BatchProducer.producer self')
       = validate_schema (BatchProducer.producer self)
    /\ BatchProducer.sends self' = BatchProducer.sends self.
Proof.
  intros self processed. unfold BatchProducer.flush, BatchProducer.sends.
  destruct (BatchProducer.buffer self) as [|event rest] eqn:Hbuf.
  - do 3 eexists. split; [reflexivity|]. rewrite Hbuf. repeat split.
  - destruct (send_batch_effect (event :: rest) (BatchProducer.producer self)
                processed)
      as (count & p' & processed' & Hrun & Ht & Hf & _ & Hp & _).
    rewrite Hrun. do 3 eexists. split; [reflexivity|].
    cbn [BatchProducer.buffer BatchProducer.batch_size
         BatchProducer.producer].
    repeat split; try assumption.
    rewrite Hp, !filter_app, sends_of_sends.
    cbn [filter map is_send]. now rewrite !app_nil_r.
Qed.

(** [BatchProducer.add_event], in full. *)
Lemma add_event_effect : forall event self processed,
  exists self' processed',
    BatchProducer.add_event event self processed = (Ok tt, self', processed')
    /\ BatchProducer.batch_size self' = BatchProducer.batch_size self
    /\ topic (BatchProducer.producer self')
       = topic (BatchProducer.producer self)
    /\ validate_schema (BatchProducer.producer self')
       = validate_schema (BatchProducer.producer self)
    /\ (BatchProducer.buffer self' = []
        \/ (Z.of_nat (length (BatchProducer.buffer self'))
            < BatchProducer.batch_size self)%Z)
    /\ BatchProducer.sends self'
       = BatchProducer.sends self
         ++ map (send_of (BatchProducer.producer self))
              (filter (let_through (BatchProducer.producer self)) [event]).
Proof.
  intros event self processed. unfold BatchProducer.add_event. cbv zeta.
  cbn [BatchProducer.batch_size BatchProducer.buffer].
  assert (Hgrown :
    BatchProducer.sends
      {| BatchProducer.producer := BatchProducer.producer self;
         BatchProducer.batch_size := BatchProducer.batch_size self;
         BatchProducer.buffer := BatchProducer.buffer self ++ [event] |}
    = BatchProducer.sends self
      ++ map (send_of (BatchProducer.producer self))
           (filter (let_through (BatchProducer.producer self)) [event])).
  { unfold BatchProducer.sends.
    cbn [BatchProducer.producer BatchProducer.buffer].
    now rewrite filter_app, map_app, app_assoc. }
  destruct (Z.leb_spec (BatchProducer.batch_size self)
              (Z.of_nat (length (BatchProducer.buffer self ++ [event]))))
    as [Hfull|Hroom].
  - match goal with
    | |- context [BatchProducer.flush ?s processed] =>
        destruct (flush_effect s processed)
          as (count & self' & processed' & Hrun & Hbuf & Hsize & Ht & Hf &
              Hsends)
    end.
    rewrite Hrun. do 2 eexists. split; [reflexivity|].
    rewrite Hsends, Hgrown. cbn in Hsize, Ht, Hf. auto 10.
  - do 2 eexists. split; [reflexivity|].
    rewrite Hgrown. cbn [BatchProducer.batch_size BatchProducer.producer
                         BatchProducer.buffer]. auto 10.
Qed.

(** A series of [add_event] calls, in full. *)
Lemma add_events_effect : forall events self processed,
  exists self' processed',
    BatchProducer.add_events events self processed
    = (Ok tt, self', processed')
    /\ BatchProducer.batch_size self' = BatchProducer.batch_size self
    /\ topic (BatchProducer.producer self')
       = topic (BatchProducer.producer self)
    /\ validate_schema (BatchProducer.producer self')
       = validate_schema (BatchProducer.producer self)
    /\ (events = [] /\ self' = self
        \/ BatchProducer.buffer self' = []
        \/ (Z.of_nat (length (BatchProducer.buffer self'))
            < BatchProducer.batch_size self)%Z)
    /\ BatchProducer.sends self'
       = BatchProducer.sends self
         ++ map (send_of (BatchProducer.producer self))
              (filter (let_through (BatchProducer.producer self)) events).
Proof.
  induction events as [|event rest IH]; intros self processed.
  - do 2 eexists. split; [reflexivity|]. cbn. rewrite app_nil_r. auto 10.
  - destruct (add_event_effect event self processed)
      as (self1 & processed1 & Hrun & Hsize & Ht & Hf & Hbound & Hsends).
    destruct (IH self1 processed1)
      as (self' & processed' & Hall & Hsize' & Ht' & Hf' & Hbound' & Hsends').
    cbn [BatchProducer.add_events]. rewrite Hrun, Hall.
    do 2 eexists. split; [reflexivity|].
    split; [congruence|]. split; [congruence|]. split; [congruence|].
    split.
    + right. destruct Hbound' as [[_ ->]|[Hempty|Hlt]];
        [exact Hbound|now left|right; now rewrite <- Hsize].
    + rewrite Hsends', Hsends.
      rewrite (let_through_flag _ _ Hf), (send_of_topic _ _ Ht).
      rewrite <- app_assoc, <- map_app, <- filter_app. reflexivity.
Qed.


End Producers.

(** ** The further properties at concrete inputs

    Run with [sample_runtime] on the purchase event with user 12345 and
    the price 49.99. *)

(** The purchase event without its [session_id]. *)
Lemma purchase_event_without_session_id :
  EventSchema.validate
    (dict_remove "session_id" (purchase_event (PInt 12345) price_49_99))
  = Ok (false, Some "Missing required field: session_id").
Proof.
  exact (missing_required_field_is_named (H := sample_runtime)
           (purchase_event (PInt 12345) price_49_99) "session_id" eq_refl
           (or_intror (or_intror (or_intror (or_intror
              (or_introl eq_refl)))))).
Defined.

(** The purchase event with the user id given as text. *)
Lemma purchase_event_with_text_user_id :
  EventSchema.validate
    (dict_set "user_id" (PStr "12345")
       (purchase_event (PInt 12345) price_49_99))
  = Ok (false, Some "Invalid type for user_id: expected int, got str").
Proof.
  exact (wrong_type_is_reported (H := sample_runtime)
           (purchase_event (PInt 12345) price_49_99) "user_id" TInt
           (PStr "12345") eq_refl
           (or_intror (or_intror (or_introl eq_refl))) eq_refl).
Defined.

(** The purchase event with a [version] key, which the check never
    reads. *)
Lemma purchase_event_with_version :
  EventSchema.validate
    (dict_set "version" (PInt 2) (purchase_event (PInt 12345) price_49_99))
  = Ok (true, None).
Proof.
  exact (eq_trans
           (unknown_keys_are_ignored (H := sample_runtime)
              (purchase_event (PInt 12345) price_49_99) "version" (PInt 2)
              eq_refl)
           eq_refl).
Defined.

(** The purchase event turned into a [refund]. *)
Lemma purchase_event_as_refund :
  EventSchema.validate
    (dict_set "event_type" (PStr "refund")
       (purchase_event (PInt 12345) price_49_99))
  = Ok (false, Some "Invalid event_type: refund").
Proof.
  exact (event_type_outside_enumeration (H := sample_runtime)
           (purchase_event (PInt 12345) price_49_99) "refund"
           eq_refl eq_refl).
Defined.

(** The purchase event sent from a television. *)
Lemma purchase_event_from_tv :
  EventSchema.validate
    (dict_set "device" (PStr "tv") (purchase_event (PInt 12345) price_49_99))
  = Ok (false, Some "Invalid device: tv").
Proof.
  exact (device_outside_enumeration (H := sample_runtime)
           (purchase_event (PInt 12345) price_49_99) "tv" eq_refl eq_refl).
Defined.

(** The purchase event located in [USCA], without the dash. *)
Lemma purchase_event_in_USCA :
  EventSchema.validate
    (dict_set "geo_location" (PStr "USCA")
       (purchase_event (PInt 12345) price_49_99))
  = Ok (false, Some "Invalid geo_location format: USCA").
Proof.
  exact (geo_location_without_dash (H := sample_runtime)
           (purchase_event (PInt 12345) price_49_99) "USCA" eq_refl eq_refl).
Defined.

(** The purchase event dated [yesterday]. *)
Lemma purchase_event_dated_yesterday :
  EventSchema.validate
    (dict_set "timestamp" (PStr "yesterday")
       (purchase_event (PInt 12345) price_49_99))
  = Ok (false, Some "Invalid timestamp format: yesterday").
Proof.
  exact (timestamp_that_does_not_parse (H := sample_runtime)
           (purchase_event (PInt 12345) price_49_99) "yesterday"
           eq_refl eq_refl).
Defined.


(** The purchase event given the source [organic] and then none. *)
Lemma purchase_event_source_deleted :
  EventSchema.validate
    (dict_remove "source"
       (dict_set "source" (PStr "organic")
          (purchase_event (PInt 12345) price_49_99)))
  = Ok (true, None).
Proof.
  exact (source_is_optional (H := sample_runtime)
           (dict_set "source" (PStr "organic")
              (purchase_event (PInt 12345) price_49_99))
           eq_refl).
Defined.



(** The purchase event has no nullability error. *)
Lemma purchase_event_has_no_null_error :
  null_errors (purchase_event (PInt 12345) price_49_99) = [].
Proof.
  exact (eq_trans
           (nullability_after_schema (H := sample_runtime)
              (purchase_event (PInt 12345) price_49_99) eq_refl)
           eq_refl).
Defined.

(** A detector with a window of five, fed eleven prices of which the last
    is far off. *)
Lemma window_of_five_never_flags :
  exists rs self' w',
    AnomalyDetector.detect_all "price" (repeat 10%Q 10 ++ [1000%Q])
      (AnomalyDetector.init 5 3%Q) world0
    = (Ok rs, self', w')
    /\ forallb insufficient rs = true
    /\ AnomalyDetector.failure_count self' = 0%nat.
Proof.
  destruct (short_window_never_flags (H := sample_runtime) 5 3%Q "price"
              (repeat 10%Q 10 ++ [1000%Q]) world0
              (proj1 (Nat.ltb_lt 5 10) eq_refl))
    as (rs & self' & w' & Hrun & _ & Hall & Hcount & _).
  exists rs, self', w'. split; [exact Hrun|]. split; [exact Hall|exact Hcount].
Defined.


(** The purchase event with its price given as text. *)
Lemma text_price_is_not_analysed :
  exists overall results self' w',
    DataValidator.validate
      (purchase_event (PInt 12345) (PStr "49.99")) DataValidator.init world0
    = (Ok (overall, results), self', w')
    /\ length results = 3%nat
    /\ AnomalyDetector.value_history (DataValidator.anomaly_detector self')
       = AnomalyDetector.value_history AnomalyDetector.default.
Proof.
  destruct (no_numeric_price_no_detection (H := sample_runtime)
              (purchase_event (PInt 12345) (PStr "49.99"))
              DataValidator.init world0 eq_refl eq_refl)
    as (overall & results & self' & w' & Hrun & Hlen & Hwin & _).
  exists overall, results, self', w'.
  split; [exact Hrun|]. split; [exact Hlen|exact Hwin].
Defined.

(** The purchase event goes through [Event] and comes back accepted, with
    the source [direct]. *)
Lemma purchase_event_through_event_class :
  exists e,
    Event.from_dict (purchase_event (PInt 12345) price_49_99) = Ok e
    /\ EventSchema.validate (Event.to_dict e) = Ok (true, None)
    /\ Event.source e = PStr "direct".
Proof.
  exists {| Event.event_id := PStr "evt_0000000001";
            Event.event_type := PStr "purchase";
            Event.user_id := PInt 12345;
            Event.timestamp := PStr "2024-01-01T00:00:00Z";
            Event.session_id := PStr "sess_1";
            Event.properties := PDict [("price", price_49_99)];
            Event.device := PStr "mobile";
            Event.geo_location := PStr "US-CA";
            Event.source := PStr "direct";
            Event.version := PStr "1.0" |}.
  split; [reflexivity|]. split; [|reflexivity].
  exact (eq_trans
           (event_keeps_schema_verdict (H := sample_runtime)
              (purchase_event (PInt 12345) price_49_99) _ eq_refl)
           eq_refl).
Defined.

#[local] Existing Instance sample_kafka.

